(** * Attendance System: the self-contained Apps Script back end

    A shallow embedding of the Apps Script ("Attendance System —
    Self-Contained Apps Script") that serves the attendance form, keeps the
    single 'currentSession' script property and appends one row per accepted
    submission to the 'Attendance' sheet, plus the countdown of the teacher's
    session screen (src/screens/SessionScreen.tsx).

    Modelling conventions.
    - A JS string is a [string] (a list of 8-bit characters); [trim] and
      [toLowerCase] are the ASCII restrictions of the JS methods.
    - [new Date()] is an explicit argument [now : Z], milliseconds since the
      epoch.  [Utilities.formatDate] and [Date.prototype.toISOString] belong
      to the platform and are section variables.
    - [PropertiesService.getScriptProperties()] is the three properties the
      script uses; 'currentSession' holds the object itself rather than its
      JSON text.
    - [SpreadsheetApp.openById] reads a finite map from file ids to
      spreadsheets.  A sheet is the array [getValues()] returns for it, each
      row with at least one cell; a cell is given by its text
      ([.toString()]), the empty string for an empty cell.  [cell j r] reads
      a cell past the end of the row as the empty string too; where the
      script tells the two apart ([data[i][1].toString()] of the roll-number
      lookup throws on [undefined], the [===] of the duplicate scan is
      false) the row is read with [r !! j].
    - Sheets stores a text that looks like a number or a date as a number or
      a date, and [getValues()] then hands back a value that is not a
      string.  [.toString()] hides this; the [===] with which the duplicate
      scan compares the session-name cell does not.  Which texts are
      re-typed belongs to the platform: the section variable [retyped].  The
      filter of [getResponses] is taken on the text of the cell.
    - Requests are served one at a time.
    - A thrown exception is a value of [exn]. *)

From Stdlib Require Import ZArith Ascii String DecimalString Lia.
From stdpp Require Import base strings gmap list.

Local Open Scope Z_scope.

(** ** JavaScript string helpers *)

Module JS.

(** Whitespace removed by [String.prototype.trim], ASCII part:
    TAB, LF, VT, FF, CR and SPACE. *)
Definition isWhiteSpace (c : ascii) : bool :=
  let n := N_of_ascii c in
  ((9 <=? n) && (n <=? 13) || (n =? 32))%N.

Definition lowerChar (c : ascii) : ascii :=
  let n := N_of_ascii c in
  if ((65 <=? n) && (n <=? 90))%N then ascii_of_N (n + 32) else c.

Fixpoint toLowerCase (s : string) : string :=
  match s with
  | EmptyString => EmptyString
  | String c r => String (lowerChar c) (toLowerCase r)
  end.

Fixpoint trimStart (s : string) : string :=
  match s with
  | EmptyString => EmptyString
  | String c r => if isWhiteSpace c then trimStart r else s
  end.

Fixpoint trimEnd (s : string) : string :=
  match s with
  | EmptyString => EmptyString
  | String c r =>
      match trimEnd r with
      | EmptyString => if isWhiteSpace c then EmptyString else String c EmptyString
      | r' => String c r'
      end
  end.

Definition trim (s : string) : string := trimEnd (trimStart s).

(** [!s] for a string: only the empty string is falsy. *)
Definition falsy (s : string) : bool := (s =? "")%string.

(** [!v] for a value that is a string, [null] or [undefined]. *)
Definition falsyOpt (v : option string) : bool :=
  match v with
  | None => true
  | Some s => falsy s
  end.

(** [xs.indexOf(x)]: [None] stands for -1. *)
Fixpoint indexOf (x : string) (xs : list string) : option nat :=
  match xs with
  | [] => None
  | y :: r => if (y =? x)%string then Some 0%nat else S <$> indexOf x r
  end.

End JS.

Import JS.

(** ** The stored data *)

(** A sheet is its name and the array [getDataRange().getValues()] returns:
    row 0 is the header. *)
Record sheet := mkSheet {
  sheetName : string;
  values : list (list string)
}.

Record spreadsheet := mkSpreadsheet {
  ssUrl : string;
  ssSheets : list sheet
}.

(** The text of [data[i][j]]: the empty string for an empty cell, and for
    one past the end of the row. *)
Definition cell (j : nat) (r : list string) : string := nth j r ""%string.

(** The objects [setSessionState] is ever given by this script:
    [{ sessionName, startedAt, active }] from [startSession] (and from
    [stopSession] on such an object), and [{ active: false }], which is what
    [{ ...null, active: false }] evaluates to. *)
Inductive sessionObj :=
| Session (sessionName startedAt : string) (active : bool)
| OnlyInactive.

Definition active (s : sessionObj) : bool :=
  match s with
  | Session _ _ a => a
  | OnlyInactive => false
  end.

(** [session.sessionName]; [None] is [undefined]. *)
Definition sessionName (s : sessionObj) : option string :=
  match s with
  | Session n _ _ => Some n
  | OnlyInactive => None
  end.

Record world := mkWorld {
  SHEET_ID : option string;
  ROLL_MAP_ID : option string;
  currentSession : option sessionObj;
  drive : gmap string spreadsheet
}.

Inductive exn :=
| OpenByIdFailed          (* SpreadsheetApp.openById on a missing file or a null id *)
| TypeErrorNull.          (* a method call on null or undefined *)

(** The JSON bodies the script answers with. *)
Inductive response :=
| RError (error : string)
| RCaught (err : exn)                          (* { error: err.toString() } *)
| RSubmitOk                                    (* { success: true, message: 'Attendance recorded' } *)
| RStartOk (name sheetUrl : string)            (* { success: true, sessionName, sheetUrl } *)
| RStopOk (name : option string)               (* { success: true, message: 'Session stopped', sessionName } *)
| RStatus (session : option sessionObj)        (* { session } *)
| RResponses (headers : list string) (responses : list (gmap string string)) (count : nat)
| RPing                                        (* { status: 'ok' } *)
| RForm (isActive : bool) (name : option string).
    (* the HTML page of serveStudentForm: the form or the closed notice, and
       the text put into the form's 'session-name' element *)

(** ** Spreadsheet access *)

Definition openById (id : option string) (w : world) : exn + spreadsheet :=
  match id with
  | None => inl OpenByIdFailed
  | Some i =>
      match drive w !! i with
      | Some ss => inr ss
      | None => inl OpenByIdFailed
      end
  end.

(** [ss.getSheetByName(name)]; [None] is [null]. *)
Definition getSheetByName (name : string) (ss : spreadsheet) : option sheet :=
  List.find (fun sh => (sheetName sh =? name)%string) (ssSheets ss).

(** [sheet.appendRow(r)] for the sheet [getSheetByName name] returned. *)
Fixpoint appendRowIn (name : string) (r : list string) (shs : list sheet) : list sheet :=
  match shs with
  | [] => []
  | sh :: rest =>
      if (sheetName sh =? name)%string
      then mkSheet (sheetName sh) (values sh ++ [r]) :: rest
      else sh :: appendRowIn name r rest
  end.

Definition appendRow (id name : string) (r : list string) (w : world) : world :=
  match drive w !! id with
  | Some ss =>
      mkWorld (SHEET_ID w) (ROLL_MAP_ID w) (currentSession w)
              (<[id := mkSpreadsheet (ssUrl ss) (appendRowIn name r (ssSheets ss))]> (drive w))
  | None => w
  end.

(** ** A stand-in platform for closed examples *)

(** The instant as decimal milliseconds, after the pattern for [formatDate]. *)
Definition demoISO (now : Z) : string := NilZero.string_of_int (Z.to_int now).
Definition demoFormat (now : Z) (fmt : string) : string :=
  (fmt +:+ " " +:+ demoISO now)%string.

Definition isDigit (c : ascii) : bool :=
  let n := N_of_ascii c in ((48 <=? n) && (n <=? 57))%N.

Fixpoint allDigits (s : string) : bool :=
  match s with
  | EmptyString => true
  | String c r => isDigit c && allDigits r
  end.

(** The stand-in re-types the texts Sheets certainly stores as numbers:
    the non-empty runs of decimal digits. *)
Definition demoRetyped (s : string) : bool := negb (s =? "")%string && allDigits s.

(** ** The script *)

(** [s.replace(/c/g, rep)] for a pattern that is the one character [c]. *)
Fixpoint replaceAll (c : ascii) (rep : string) (s : string) : string :=
  match s with
  | EmptyString => EmptyString
  | String a r =>
      if Ascii.eqb a c then (rep +:+ replaceAll c rep r)%string
      else String a (replaceAll c rep r)
  end.

(** The double-quote character. *)
Definition dquote : ascii := ascii_of_N 34.

(** [escapeHtml]: four replacements, one after the other. *)
Definition escapeHtml (text : string) : string :=
  replaceAll dquote "&quot;"
    (replaceAll ">" "&gt;" (replaceAll "<" "&lt;" (replaceAll "&" "&amp;" text))).

Section Script.

(** [formatDate now fmt] is
    [Utilities.formatDate(now, Session.getScriptTimeZone(), fmt)]. *)
Variable formatDate : Z -> string -> string.
(** [toISOString now] is [now.toISOString()]. *)
Variable toISOString : Z -> string.
(** [retyped s]: Sheets stores the text [s] as a number or a date, so that
    the value [getValues()] hands back for a cell [s] was written to is not
    a string. *)
Variable retyped : string -> bool.

(** *** Initial setup (run once by hand) *)

Definition attendanceHeader : list string :=
  ["Email"; "Roll Number"; "Session Name"; "Date"; "Time"; "Timestamp"]%string.

Definition rollMapInitial : list (list string) :=
  [ ["Email"; "RollNumber"];
    ["student1@college.edu"; "21ME001"];
    ["student2@college.edu"; "21ME002"] ]%string.

(** [ssId], [ssUrl], [rollId] and [rollUrl] are what [SpreadsheetApp.create]
    gives the two new files. *)
Definition initialSetup (ssId ssUrl rollId rollUrl : string) (w : world) : world :=
  mkWorld (Some ssId) (Some rollId) (currentSession w)
    (<[rollId := mkSpreadsheet rollUrl [mkSheet "RollMap" rollMapInitial]]>
       (<[ssId := mkSpreadsheet ssUrl [mkSheet "Attendance" [attendanceHeader]]]>
          (drive w))).

(** *** Session management *)

Definition getSessionState (w : world) : option sessionObj := currentSession w.

Definition setSessionState (state : option sessionObj) (w : world) : world :=
  mkWorld (SHEET_ID w) (ROLL_MAP_ID w) state (drive w).

Definition startSession (name : option string) (now : Z) (w : world) : world * response :=
  match name with
  | None => (w, RError "Session name is required")
  | Some n =>
      if falsy n || (trim n =? "")%string then (w, RError "Session name is required")
      else
        match SHEET_ID w with
        | None => (w, RError "Run initialSetup() first from the script editor")
        | Some sheetId =>
            if falsy sheetId
            then (w, RError "Run initialSetup() first from the script editor")
            else
              let w' := setSessionState (Some (Session (trim n) (toISOString now) true)) w in
              let sheetUrl :=
                match openById (Some sheetId) w' with
                | inr ss => ssUrl ss
                | inl _ => ("https://docs.google.com/spreadsheets/d/" +:+ sheetId)%string
                end in
              (w', RStartOk (trim n) sheetUrl)
        end
  end.

(** [{ ...session, active: false }] *)
Definition deactivated (session : option sessionObj) : sessionObj :=
  match session with
  | Some (Session n t _) => Session n t false
  | Some OnlyInactive => OnlyInactive
  | None => OnlyInactive
  end.

Definition stopSession (w : world) : world * response :=
  let session := getSessionState w in
  (setSessionState (Some (deactivated session)) w,
   RStopOk (match session with
            | Some s => sessionName s
            | None => Some "unknown"%string
            end)).

Definition getStatus (w : world) : response := RStatus (getSessionState w).

(** *** Roll number lookup *)

Definition lookupRollNumber (email : string) (w : world) : string :=
  if falsyOpt (ROLL_MAP_ID w) then "NO MAP"%string
  else
    match openById (ROLL_MAP_ID w) w with
    | inl _ => "LOOKUP ERROR"%string
    | inr ss =>
        match ssSheets ss with
        | [] => "LOOKUP ERROR"%string
        | sh :: _ =>
            match List.find (fun r => (trim (toLowerCase (cell 0 r)) =? email)%string)
                            (tail (values sh)) with
            | Some r =>
                (* [data[i][1].toString()] throws on a row without a second
                   cell, and the [catch] answers *)
                match r !! 1%nat with
                | Some rollNumber => rollNumber
                | None => "LOOKUP ERROR"%string
                end
            | None => "NOT FOUND"%string
            end
        end
    end.

(** *** Student submission *)

(** [v === s] for a cell [v] and a string [s]: false for a missing cell
    ([undefined]) and for one that was re-typed, whatever its text. *)
Definition strictEquals (v : option string) (s : string) : bool :=
  match v with
  | Some c => negb (retyped c) && (c =? s)%string
  | None => false
  end.

(** The test of the duplicate scan, for one row:
    [data[i][0].toString().toLowerCase() === email &&
     data[i][2] === session.sessionName]. *)
Definition sameSubmission (email name : string) (r : list string) : bool :=
  (toLowerCase (cell 0 r) =? email)%string && strictEquals (r !! 2%nat) name.

Definition handleStudentSubmission (parameter : gmap string string) (now : Z) (w : world)
  : world * (exn + response) :=
  let email := toLowerCase (trim (default ""%string (parameter !! "email"%string))) in
  let name := trim (default ""%string (parameter !! "name"%string)) in
  if falsy email || falsy name then (w, inr (RError "Email and name are required"))
  else
    match getSessionState w with
    | Some (Session sessName _ true) =>
        match openById (SHEET_ID w) w with
        | inl e => (w, inl e)
        | inr ss =>
            match getSheetByName "Attendance" ss with
            | None => (w, inl TypeErrorNull)
            | Some sh =>
                let data := values sh in
                if existsb (sameSubmission email sessName) (tail data)
                then (w, inr (RError "You have already submitted for this session"))
                else
                  let rollNumber := lookupRollNumber email w in
                  let dateStr := formatDate now "dd/MM/yyyy" in
                  let timeStr := formatDate now "HH:mm:ss" in
                  (* [sheet] is in the file just opened, whose id is SHEET_ID *)
                  (appendRow (default ""%string (SHEET_ID w)) "Attendance"
                     [email; rollNumber; sessName; dateStr; timeStr; toISOString now] w,
                   inr RSubmitOk)
            end
        end
    | _ => (w, inr (RError "Session is closed"))
    end.

(** *** Reading the responses *)

(** The [continue] test of the loop. *)
Definition filteredOut (sessionFilter : option string) (sessionCol : option nat)
    (r : list string) : bool :=
  match sessionFilter, sessionCol with
  | Some f, Some c => negb (falsy f) && negb (cell c r =? f)%string
  | _, _ => false
  end.

(** [row[headers[j]] = data[i][j]] for [j] from 0 to [headers.length - 1]. *)
Definition rowObject (headers r : list string) : gmap string string :=
  foldl (fun row j => <[cell j headers := cell j r]> row) ∅ (seq 0 (length headers)).

Definition getResponses (sessionFilter : option string) (w : world) : response :=
  if falsyOpt (SHEET_ID w) then RError "Sheet not set up"
  else
    match openById (SHEET_ID w) w with
    | inl e => RCaught e
    | inr ss =>
        match getSheetByName "Attendance" ss with
        | None => RCaught TypeErrorNull
        | Some sh =>
            let data := values sh in
            match data with
            | [] => RResponses [] [] 0
            | [h] => RResponses h [] 0
            | headers :: rest =>
                let sessionCol := indexOf "Session Name" headers in
                let responses :=
                  rowObject headers <$>
                    List.filter (fun r => negb (filteredOut sessionFilter sessionCol r)) rest in
                RResponses headers responses (length responses)
            end
        end
    end.

(** *** HTTP handlers *)

Definition serveStudentForm (w : world) : response :=
  match getSessionState w with
  | Some (Session n _ true) => RForm true (Some (escapeHtml n))
  | _ => RForm false None
  end.

Definition doGet (parameter : gmap string string) (w : world) : response :=
  match parameter !! "action"%string with
  | Some action =>
      if falsy action then serveStudentForm w
      else if (action =? "getResponses")%string
           then getResponses (parameter !! "sessionName"%string) w
      else if (action =? "getStatus")%string then getStatus w
      else if (action =? "ping")%string then RPing
      else RError "Unknown action"
  | None => serveStudentForm w
  end.

(** The body of a POST: a url-encoded form, or the object [JSON.parse]
    returns for the teacher app's request. *)
Inductive postData :=
| FormData (parameter : gmap string string)
| JsonData (data : gmap string string).

Definition doPost (e : postData) (now : Z) (w : world) : world * response :=
  match e with
  | FormData parameter =>
      match handleStudentSubmission parameter now w with
      | (w', inr r) => (w', r)
      | (w', inl err) => (w', RCaught err)
      end
  | JsonData data =>
      match data !! "action"%string with
      | Some action =>
          if (action =? "startSession")%string
          then startSession (data !! "sessionName"%string) now w
          else if (action =? "stopSession")%string then stopSession w
          else (w, RError ("Unknown action: " +:+ action))
      | None => (w, RError "Unknown action: undefined")
      end
  end.

(** *** Traces of requests *)

Inductive request :=
| Get (parameter : gmap string string)
| Post (e : postData).

Definition serve (now : Z) (q : request) (w : world) : world * response :=
  match q with
  | Get parameter => (w, doGet parameter w)
  | Post e => doPost e now w
  end.

(** Serve the requests in order, each at its own time; the responses come
    back in the same order. *)
Fixpoint run (qs : list (Z * request)) (w : world) : world * list response :=
  match qs with
  | [] => (w, [])
  | (now, q) :: rest =>
      let '(w1, r) := serve now q w in
      let '(w2, rs) := run rest w1 in
      (w2, r :: rs)
  end.

(** The requests the script understands: the JSON bodies with an [action]
    and the url-encoded form of the student page. *)
Definition start (name : string) : request :=
  Post (JsonData (<["sessionName" := name]> {["action" := "startSession"]}))%string.
Definition stop : request :=
  Post (JsonData {["action" := "stopSession"]})%string.
Definition submit (parameter : gmap string string) : request :=
  Post (FormData parameter).

(** *** The countdown of the teacher's session screen *)

Definition SESSION_DURATION_MS : Z := 10 * 60 * 1000.

Record screen := mkScreen {
  endTime : Z;       (* startTime + SESSION_DURATION_MS *)
  timeLeft : Z;
  isActive : bool
}.

Definition mountScreen (startTime : Z) : screen :=
  mkScreen (startTime + SESSION_DURATION_MS) SESSION_DURATION_MS true.

(** [handleTerminate(auto)]: the second component tells whether
    [stopSession] is sent to the server. *)
Definition handleTerminate (auto : bool) (sc : screen) : screen * bool :=
  if negb (isActive sc) && negb auto then (sc, false)
  else (mkScreen (endTime sc) (timeLeft sc) false, true).

(** One run of [tick], which the interval fires while [isActive]. *)
Definition tick (now : Z) (sc : screen) : screen * bool :=
  let remaining := endTime sc - now in
  if remaining <=? 0
  then handleTerminate true (mkScreen (endTime sc) 0 (isActive sc))
  else (mkScreen (endTime sc) remaining (isActive sc), false).

End Script.

(** ** Observations used in the statements *)

(** The array the submission handler scans: the values of the 'Attendance'
    sheet of the file SHEET_ID names, when it can be opened. *)
Definition attendanceData (w : world) : option (list (list string)) :=
  match openById (SHEET_ID w) w with
  | inr ss => values <$> getSheetByName "Attendance" ss
  | inl _ => None
  end.

Definition rowsOf (w : world) : list (list string) := default [] (attendanceData w).

(** The submission records: every row below the header. *)
Definition records (w : world) : list (list string) := tail (rowsOf w).

(** What the duplicate scan can match a row by: the lower-cased email cell
    and the session-name cell, when that cell is there and was kept as
    text. *)
Definition submissionKey (retyped : string -> bool) (r : list string)
  : option (string * string) :=
  match r !! 2%nat with
  | Some c => if retyped c then None else Some (toLowerCase (cell 0 r), c)
  | None => None
  end.

Definition ledgerOk (retyped : string -> bool) (w : world) : Prop :=
  NoDup (omap (submissionKey retyped) (records w)).

(** The records of identity [ident] in session [sess], by the text of the
    cells: the email cell without regard to case. *)
Definition isRecordOf (sess ident : string) (r : list string) : bool :=
  (toLowerCase (cell 0 r) =? ident)%string && bool_decide (r !! 2%nat = Some sess).

Definition recordsFor (sess ident : string) (w : world) : list (list string) :=
  List.filter (isRecordOf sess ident) (records w).

(** The name of the session submissions are accepted for, if any. *)
Definition accepting (w : world) : option string :=
  match getSessionState w with
  | Some (Session n _ true) => Some n
  | _ => None
  end.

Definition emptyWorld : world := mkWorld None None None ∅.

(** A freshly set-up deployment. *)
Definition freshWorld : world :=
  initialSetup "sheet-1" "https://docs.google.com/spreadsheets/d/sheet-1/edit"
               "roll-1" "https://docs.google.com/spreadsheets/d/roll-1/edit" emptyWorld.

Definition formOf (email name : string) : gmap string string :=
  <["name" := name]> (<["email" := email]> (<["submit" := "true"]> ∅))%string.


(** A request that calls [stopSession]. *)
Definition isStop (q : request) : bool :=
  match q with
  | Post (JsonData data) =>
      match data !! "action"%string with
      | Some action => (action =? "stopSession")%string
      | None => false
      end
  | _ => false
  end.

(** The answer of a [startSession] that went through. *)
Definition isStartOk (r : response) : bool :=
  match r with
  | RStartOk _ _ => true
  | _ => false
  end.

(** A request that calls [startSession]. *)
Definition isStart (q : request) : bool :=
  match q with
  | Post (JsonData data) =>
      match data !! "action"%string with
      | Some action => (action =? "startSession")%string
      | None => false
      end
  | _ => false
  end.

(** The identity and the name a submission carries, as the handler
    normalises them. *)
Definition emailOf (parameter : gmap string string) : string :=
  toLowerCase (trim (default ""%string (parameter !! "email"%string))).
Definition nameOf (parameter : gmap string string) : string :=
  trim (default ""%string (parameter !! "name"%string)).

(** The five ways [handleStudentSubmission] ends, in the order of its
    checks.  Only the last one writes. *)
Inductive submissionEnds (formatDate : Z -> string -> string) (toISOString : Z -> string)
    (retyped : string -> bool) (parameter : gmap string string) (now : Z) (w : world)
  : world * (exn + response) -> Prop :=
| EndsInvalid :
    emailOf parameter = ""%string \/ nameOf parameter = ""%string ->
    submissionEnds formatDate toISOString retyped parameter now w
      (w, inr (RError "Email and name are required"))
| EndsClosed :
    emailOf parameter <> ""%string -> nameOf parameter <> ""%string ->
    accepting w = None ->
    submissionEnds formatDate toISOString retyped parameter now w
      (w, inr (RError "Session is closed"))
| EndsThrown sn e :
    emailOf parameter <> ""%string -> nameOf parameter <> ""%string ->
    accepting w = Some sn ->
    attendanceData w = None ->
    submissionEnds formatDate toISOString retyped parameter now w (w, inl e)
| EndsDuplicate sn d :
    emailOf parameter <> ""%string -> nameOf parameter <> ""%string ->
    accepting w = Some sn ->
    attendanceData w = Some d ->
    existsb (sameSubmission retyped (emailOf parameter) sn) (tail d) = true ->
    submissionEnds formatDate toISOString retyped parameter now w
      (w, inr (RError "You have already submitted for this session"))
| EndsRecorded sn d id :
    emailOf parameter <> ""%string -> nameOf parameter <> ""%string ->
    accepting w = Some sn ->
    SHEET_ID w = Some id ->
    attendanceData w = Some d ->
    existsb (sameSubmission retyped (emailOf parameter) sn) (tail d) = false ->
    submissionEnds formatDate toISOString retyped parameter now w
      (appendRow id "Attendance"
         [emailOf parameter; lookupRollNumber (emailOf parameter) w; sn;
          formatDate now "dd/MM/yyyy"%string; formatDate now "HH:mm:ss"%string;
          toISOString now] w,
       inr RSubmitOk).

(** The answer of an accepted submission. *)
Definition isSubmitOk (r : response) : bool :=
  match r with
  | RSubmitOk => true
  | _ => false
  end.

(** The table [lookupRollNumber] scans: the values of the first sheet of
    the file ROLL_MAP_ID names, when it can be opened. *)
Definition rollMapData (w : world) : option (list (list string)) :=
  match openById (ROLL_MAP_ID w) w with
  | inr ss => values <$> head (ssSheets ss)
  | inl _ => None
  end.

(** The URL of the file stored under [id], if there is one. *)
Definition urlAt (id : string) (w : world) : option string :=
  ssUrl <$> drive w !! id.

(** ** Closed runs: a fresh deployment under the stand-in platform *)

Definition sheetUrl1 : string := "https://docs.google.com/spreadsheets/d/sheet-1/edit".

(** The row an accepted submission writes under the stand-in platform. *)
Definition demoRow (email roll session : string) (now : Z) : list string :=
  [email; roll; session; demoFormat now "dd/MM/yyyy"; demoFormat now "HH:mm:ss"; demoISO now]%string.

(** [formOf] with the device fingerprint the student app sends along. *)
Definition formWithDevice (email name deviceId : string) : gmap string string :=
  <["deviceId" := deviceId]> (formOf email name).

Definition demoRun : list (Z * request) -> world -> world * list response :=
  run demoFormat demoISO demoRetyped.

(** A deployment whose roll map was filled in by hand, with the email typed
    in capitals and with a space after it. *)
Definition rollWorld : world :=
  mkWorld (Some "sheet-1"%string) (Some "roll-1"%string) None
    (<["roll-1"%string :=
         mkSpreadsheet "https://docs.google.com/spreadsheets/d/roll-1/edit"
           [mkSheet "RollMap" [["Email"; "RollNumber"];
                               ["Ann@College.EDU "; "21ME007"];
                               ["ann@college.edu"; "21ME999"]]%string]]>
       (drive freshWorld)).


(** ** The apps' helpers *)

(** *** The session screen: showing the time left *)

(** [n.toString()] for an integer. *)
Definition numberToString (n : Z) : string := NilZero.string_of_int (Z.to_int n).

(** [s.padStart(n, c)] for a one-character pad. *)
Fixpoint padding (n : nat) (c : ascii) : string :=
  match n with
  | O => EmptyString
  | S k => String c (padding k c)
  end.

Definition padStart (n : nat) (c : ascii) (s : string) : string :=
  (padding (n - String.length s) c +:+ s)%string.

Definition formatTime (ms : Z) : string :=
  let totalSec := Z.max 0 (ms / 1000) in
  let min := totalSec / 60 in
  let sec := totalSec mod 60 in
  (padStart 2 "0" (numberToString min) +:+ ":" +:+ padStart 2 "0" (numberToString sec))%string.

Definition getTimerColor (sc : screen) : string :=
  if timeLeft sc <=? 60000 then "#ef4444"%string
  else if timeLeft sc <=? 180000 then "#f59e0b"%string
  else "#22c55e"%string.

(** The ticks of [setInterval(tick, 1000)]: the effect that owns the
    interval runs only while [isActive], and [handleTerminate] clears the
    interval, so a tick is processed only on an active screen.  The second
    component counts the [stopSession] requests sent. *)
Fixpoint ticks (times : list Z) (sc : screen) : screen * nat :=
  match times with
  | [] => (sc, O)
  | now :: rest =>
      if isActive sc
      then let '(sc1, sent) := tick now sc in
           let '(sc2, k) := ticks rest sc1 in
           (sc2, ((if sent then 1 else 0) + k)%nat)
      else (sc, O)
  end.

(** *** The teacher app's API module *)

(** [url.replace(/\/+$/, '')]: the run of slashes at the very end goes. *)
Fixpoint stripTrailingSlashes (url : string) : string :=
  match url with
  | EmptyString => EmptyString
  | String c r =>
      match stripTrailingSlashes r with
      | EmptyString => if Ascii.eqb c "/" then EmptyString else String c EmptyString
      | r' => String c r'
      end
  end.

(** The module-level [SERVER_URL] is the state. *)
Definition setServerUrl (url : string) (SERVER_URL : string) : string :=
  stripTrailingSlashes url.

Definition getServerUrl (SERVER_URL : string) : string := SERVER_URL.

(** The address [pingServer(url)] fetches. *)
Definition pingAddress (url : string) : string :=
  (stripTrailingSlashes url +:+ "/api/status")%string.

(** *** The home screen: starting a session *)

(** [handleStart]: [None] is the 'Required' alert; otherwise the name given
    to the API module's [startSession]. *)
Definition handleStart (sessionName : string) : option string :=
  let trimmed := trim sessionName in
  if falsy trimmed then None else Some trimmed.

(** *** The responses screen *)

Definition isAlphaNum (c : ascii) : bool :=
  let n := N_of_ascii c in
  ((48 <=? n) && (n <=? 57) || (65 <=? n) && (n <=? 90) || (97 <=? n) && (n <=? 122))%N.

(** [s.replace(/[^a-zA-Z0-9]/g, '_')] *)
Fixpoint replaceNonAlphaNum (s : string) : string :=
  match s with
  | EmptyString => EmptyString
  | String c r => String (if isAlphaNum c then c else "_"%char) (replaceNonAlphaNum r)
  end.

(** The [fileName] of [handleExport]. *)
Definition exportFileName (sessionName : string) : string :=
  ("Attendance_" +:+ replaceNonAlphaNum sessionName +:+ ".xlsx")%string.




(** *** The student app *)

(** [s.includes(c)] for a one-character needle. *)
Fixpoint includesChar (c : ascii) (s : string) : bool :=
  match s with
  | EmptyString => false
  | String a r => Ascii.eqb a c || includesChar c r
  end.

(** [handleLogin]: [None] is the 'Invalid Email' alert; otherwise the email
    sent to the server and saved on the device. *)
Definition handleLogin (email : string) : option string :=
  if falsy (trim email) || negb (includesChar "@" email) then None
  else Some (trim (toLowerCase email)).

(** A character of the class [[a-zA-Z0-9_-]]. *)
Definition isCodeChar (c : ascii) : bool :=
  isAlphaNum c || Ascii.eqb c "_" || Ascii.eqb c "-".

(** The longest prefix of code characters: what [([a-zA-Z0-9_-]+)] takes. *)
Fixpoint codeRun (s : string) : string :=
  match s with
  | EmptyString => EmptyString
  | String c r => if isCodeChar c then String c (codeRun r) else EmptyString
  end.

(** An attempt of [/\/s\/([a-zA-Z0-9_-]+)/] at the start of [s]. *)
Definition matchHere (s : string) : option string :=
  match s with
  | String "/" (String "s" (String "/" r)) =>
      if falsy (codeRun r) then None else Some (codeRun r)
  | _ => None
  end.

(** [data.match(/\/s\/([a-zA-Z0-9_-]+)/)]: the capture of the leftmost
    match; [None] is [null]. *)
Fixpoint sessionCodeOf (data : string) : option string :=
  match matchHere data with
  | Some code => Some code
  | None =>
      match data with
      | EmptyString => None
      | String _ r => sessionCodeOf r
      end
  end.


(** ** Observations used in the further statements *)

(** The text one character becomes under [escapeHtml]. *)
Definition escapeChar (c : ascii) : string :=
  if Ascii.eqb c "&" then "&amp;"%string
  else if Ascii.eqb c "<" then "&lt;"%string
  else if Ascii.eqb c ">" then "&gt;"%string
  else if Ascii.eqb c dquote then "&quot;"%string
  else String c EmptyString.

Fixpoint escapeEach (s : string) : string :=
  match s with
  | EmptyString => EmptyString
  | String c r => (escapeChar c +:+ escapeEach r)%string
  end.

(** A record as the handler writes it: six cells, a non-empty email in
    normal form (lower case, trimmed) and a non-empty, trimmed session
    name. *)
Definition recordOk (r : list string) : Prop :=
  length r = 6%nat /\
  cell 0 r <> ""%string /\ toLowerCase (cell 0 r) = cell 0 r /\ trim (cell 0 r) = cell 0 r /\
  cell 2 r <> ""%string /\ trim (cell 2 r) = cell 2 r.

(** The stored session, if it has a name, has a non-empty trimmed one. *)
Definition sessionTrimmed (w : world) : Prop :=
  forall n t a, currentSession w = Some (Session n t a) -> n <> ""%string /\ trim n = n.
(** * Properties *)

Section Properties.

Variable formatDate : Z -> string -> string.
Variable toISOString : Z -> string.
Variable retyped : string -> bool.

Local Abbreviation startSession := (startSession toISOString).
Local Abbreviation strictEquals := (strictEquals retyped).
Local Abbreviation sameSubmission := (sameSubmission retyped).
Local Abbreviation handleStudentSubmission :=
  (handleStudentSubmission formatDate toISOString retyped).
Local Abbreviation doPost := (doPost formatDate toISOString retyped).
Local Abbreviation serve := (serve formatDate toISOString retyped).
Local Abbreviation run := (run formatDate toISOString retyped).
Local Abbreviation submissionEnds := (submissionEnds formatDate toISOString retyped).
Local Abbreviation submissionKey := (submissionKey retyped).
Local Abbreviation ledgerOk := (ledgerOk retyped).
(** ** Strings *)

Section StringFacts.

Lemma lowerChar_idem c : lowerChar (lowerChar c) = lowerChar c.
Proof. destruct c as [[] [] [] [] [] [] [] []]; reflexivity. Qed.

Lemma isWhiteSpace_lowerChar c : isWhiteSpace (lowerChar c) = isWhiteSpace c.
Proof. destruct c as [[] [] [] [] [] [] [] []]; reflexivity. Qed.

Lemma toLowerCase_idem s : toLowerCase (toLowerCase s) = toLowerCase s.
Proof. induction s as [|c r IH]; simpl; [done|]. by rewrite lowerChar_idem, IH. Qed.

Lemma toLowerCase_trimStart s : toLowerCase (trimStart s) = trimStart (toLowerCase s).
Proof.
  induction s as [|c r IH]; simpl; [done|].
  rewrite isWhiteSpace_lowerChar. by destruct (isWhiteSpace c).
Qed.

Lemma toLowerCase_trimEnd s : toLowerCase (trimEnd s) = trimEnd (toLowerCase s).
Proof.
  induction s as [|c r IH]; simpl; [done|].
  rewrite <- IH, isWhiteSpace_lowerChar.
  destruct (trimEnd r); simpl; [by destruct (isWhiteSpace c)|done].
Qed.

(** Trimming and lower-casing commute, so [.trim().toLowerCase()] (the
    submission) and [.toLowerCase().trim()] (the roll map) agree. *)
Lemma toLowerCase_trim s : toLowerCase (trim s) = trim (toLowerCase s).
Proof. unfold trim. by rewrite toLowerCase_trimEnd, toLowerCase_trimStart. Qed.

Lemma falsy_true s : falsy s = true <-> s = ""%string.
Proof. unfold falsy. apply String.eqb_eq. Qed.

Lemma falsy_false s : falsy s = false <-> s <> ""%string.
Proof. unfold falsy. apply String.eqb_neq. Qed.

End StringFacts.

(** ** The store: what each operation reads and writes *)

Section Store.

Lemma getSheetByName_appendRowIn name r shs :
  List.find (fun sh => (sheetName sh =? name)%string) (appendRowIn name r shs)
  = (fun sh => mkSheet (sheetName sh) (values sh ++ [r]))
      <$> List.find (fun sh => (sheetName sh =? name)%string) shs.
Proof.
  induction shs as [|sh rest IH]; simpl; [done|].
  destruct (sheetName sh =? name)%string eqn:E; simpl; rewrite E; [done|apply IH].
Qed.

Lemma attendanceData_Some w d :
  attendanceData w = Some d ->
  exists id ss sh,
    SHEET_ID w = Some id /\ drive w !! id = Some ss /\
    getSheetByName "Attendance" ss = Some sh /\ values sh = d.
Proof.
  unfold attendanceData, openById.
  destruct (SHEET_ID w) as [id|]; [|done].
  destruct (drive w !! id) as [ss|] eqn:Hd; [|done].
  destruct (getSheetByName "Attendance" ss) as [sh|] eqn:Hs; simpl; [|done].
  intros [= <-]. by exists id, ss, sh.
Qed.

Lemma attendanceData_appendRow w id d r :
  SHEET_ID w = Some id ->
  attendanceData w = Some d ->
  attendanceData (appendRow id "Attendance" r w) = Some (d ++ [r]).
Proof.
  intros Hid Hd. destruct (attendanceData_Some _ _ Hd) as (id' & ss & sh & Hid' & Hss & Hsh & <-).
  rewrite Hid in Hid'. injection Hid' as <-.
  unfold appendRow, attendanceData, openById. rewrite Hss. simpl. rewrite Hid.
  rewrite lookup_insert_eq. unfold getSheetByName in *. simpl.
  rewrite getSheetByName_appendRowIn, Hsh. done.
Qed.

Lemma appendRow_props id name r w :
  SHEET_ID (appendRow id name r w) = SHEET_ID w /\
  ROLL_MAP_ID (appendRow id name r w) = ROLL_MAP_ID w /\
  currentSession (appendRow id name r w) = currentSession w.
Proof. unfold appendRow. by destruct (drive w !! id). Qed.

End Store.

(** ** The submission handler, case by case *)

Section Submission.



Lemma handleStudentSubmission_ends parameter now w :
  submissionEnds parameter now w (handleStudentSubmission parameter now w).
Proof.
  unfold handleStudentSubmission.
  fold (emailOf parameter). fold (nameOf parameter).
  destruct (falsy (emailOf parameter)) eqn:He.
  { apply EndsInvalid. left. by apply falsy_true. }
  destruct (falsy (nameOf parameter)) eqn:Hn.
  { apply EndsInvalid. right. by apply falsy_true. }
  apply falsy_false in He, Hn. simpl.
  destruct (getSessionState w) as [[sn t [|]| ]|] eqn:Hs;
    try (apply EndsClosed; [done|done|unfold accepting; by rewrite Hs]).
  assert (Hacc : accepting w = Some sn) by (unfold accepting; by rewrite Hs).
  destruct (openById (SHEET_ID w) w) as [e|ss] eqn:Ho.
  { eapply EndsThrown; [done|done|exact Hacc|]. unfold attendanceData. by rewrite Ho. }
  destruct (getSheetByName "Attendance" ss) as [sh|] eqn:Hsh.
  2:{ eapply EndsThrown; [done|done|exact Hacc|]. unfold attendanceData. by rewrite Ho, Hsh. }
  assert (Hd : attendanceData w = Some (values sh)).
  { unfold attendanceData. by rewrite Ho, Hsh. }
  destruct (existsb _ _) eqn:Hex.
  { by eapply EndsDuplicate. }
  destruct (SHEET_ID w) as [id|] eqn:Hid; [|done].
  simpl. by eapply EndsRecorded.
Qed.

End Submission.

(** ** What one request can change *)

Section Serve.



(** [startSession] either refuses and leaves the world alone, or writes the
    new session object over whatever was stored. *)
Lemma startSession_cases name now w :
  (exists msg, startSession name now w = (w, RError msg)) \/
  (exists n url, name = Some n /\ trim n <> ""%string /\ falsyOpt (SHEET_ID w) = false /\
     startSession name now w =
       (setSessionState (Some (Session (trim n) (toISOString now) true)) w,
        RStartOk (trim n) url)).
Proof.
  unfold startSession. destruct name as [n|]; [|left; eauto].
  destruct (falsy n) eqn:Hf; simpl; [left; eauto|].
  destruct (String.eqb_spec (trim n) ""); [left; eauto|].
  destruct (SHEET_ID w) as [id|] eqn:Hid; [|left; eauto].
  destruct (falsy id) eqn:Hfid; [left; eauto|].
  right. eexists n, _. by repeat split.
Qed.

(** The session property after a request: untouched, overwritten by a
    start, or deactivated by a stop. *)
Lemma serve_currentSession now q w :
  currentSession (serve now q w).1 = currentSession w \/
  (isStart q = true /\ exists n,
      currentSession (serve now q w).1 = Some (Session n (toISOString now) true)) \/
  (isStart q = false /\
      currentSession (serve now q w).1 = Some (deactivated (currentSession w))).
Proof.
  destruct q as [parameter|[parameter|data]]; simpl; [by left| |].
  - pose proof (handleStudentSubmission_ends parameter now w) as H.
    destruct H; simpl; try by left.
    left. apply appendRow_props.
  - destruct (data !! "action"%string) as [action|] eqn:Ha; [|by left].
    destruct (action =? "startSession")%string eqn:E1.
    + destruct (startSession_cases (data !! "sessionName"%string) now w)
        as [[msg ->]|(n & url & _ & _ & _ & ->)]; [by left|].
      right; left. split; [done|]. by exists (trim n).
    + destruct (action =? "stopSession")%string; [|by left].
      right; right. done.
Qed.

(** The setup properties are never written by a request. *)
Lemma serve_ids now q w :
  SHEET_ID (serve now q w).1 = SHEET_ID w /\
  ROLL_MAP_ID (serve now q w).1 = ROLL_MAP_ID w.
Proof.
  destruct q as [parameter|[parameter|data]]; simpl; [done| |].
  - pose proof (handleStudentSubmission_ends parameter now w) as H.
    destruct H; simpl; try done. split; apply appendRow_props.
  - destruct (data !! "action"%string) as [action|]; [|done].
    destruct (action =? "startSession")%string.
    + destruct (startSession_cases (data !! "sessionName"%string) now w)
        as [[msg ->]|(n & url & _ & _ & _ & ->)]; done.
    + by destruct (action =? "stopSession")%string.
Qed.

Lemma doGet_not_submitOk parameter w : isSubmitOk (doGet parameter w) = false.
Proof.
  unfold doGet, serveStudentForm, getStatus, getResponses.
  repeat (match goal with
          | |- context [match ?x with _ => _ end] => destruct x
          end; simpl; try done).
Qed.

(** The rows of the Attendance sheet after a request: the same, or one more
    at the end, written by an accepted submission. *)
Lemma serve_rows now q w :
  (rowsOf (serve now q w).1 = rowsOf w /\ isSubmitOk (serve now q w).2 = false) \/
  exists parameter sn,
    q = Post (FormData parameter) /\
    (serve now q w).2 = RSubmitOk /\
    emailOf parameter <> ""%string /\
    accepting w = Some sn /\
    existsb (sameSubmission (emailOf parameter) sn) (records w) = false /\
    rowsOf (serve now q w).1 =
      rowsOf w ++ [[emailOf parameter; lookupRollNumber (emailOf parameter) w; sn;
                    formatDate now "dd/MM/yyyy"%string; formatDate now "HH:mm:ss"%string;
                    toISOString now]].
Proof.
  destruct q as [parameter|[parameter|data]]; simpl.
  - left. split; [done|apply doGet_not_submitOk].
  - pose proof (handleStudentSubmission_ends parameter now w) as H.
    destruct H as [ | | | |sn d id He Hn Hacc Hid Hd Hex]; simpl; try by left.
    right. exists parameter, sn. repeat split; try done.
    + unfold records, rowsOf. by rewrite Hd.
    + unfold rowsOf. by rewrite (attendanceData_appendRow _ _ _ _ Hid Hd), Hd.
  - left. destruct (data !! "action"%string) as [action|]; [|done].
    destruct (action =? "startSession")%string.
    + destruct (startSession_cases (data !! "sessionName"%string) now w)
        as [[msg ->]|(n & url & _ & _ & _ & ->)]; done.
    + by destruct (action =? "stopSession")%string.
Qed.

Lemma run_cons now q qs w :
  run ((now, q) :: qs) w =
    ((run qs (serve now q w).1).1, (serve now q w).2 :: (run qs (serve now q w).1).2).
Proof.
  change (run ((now, q) :: qs) w)
    with (let '(w1, r) := serve now q w in let '(w2, rs) := run qs w1 in (w2, r :: rs)).
  destruct (serve now q w) as [w1 r]. cbv beta iota. cbn [fst snd].
  destruct (run qs w1) as [w2 rs]. reflexivity.
Qed.

Lemma run_ids qs w :
  SHEET_ID (run qs w).1 = SHEET_ID w /\ ROLL_MAP_ID (run qs w).1 = ROLL_MAP_ID w.
Proof.
  revert w. induction qs as [|[now q] qs IH]; intros w; [done|].
  rewrite run_cons; simpl.
  destruct (IH (serve now q w).1) as [-> ->]. apply serve_ids.
Qed.


End Serve.

(** ** The ledger: one record per session and identity *)

Section Ledger.

Lemma emailOf_lower parameter : toLowerCase (emailOf parameter) = emailOf parameter.
Proof. unfold emailOf. apply toLowerCase_idem. Qed.

Lemma sameSubmission_true email name r :
  sameSubmission email name r = true <->
  toLowerCase (cell 0 r) = email /\ r !! 2%nat = Some name /\ retyped name = false.
Proof.
  unfold sameSubmission, strictEquals. rewrite andb_true_iff, String.eqb_eq.
  destruct (r !! 2%nat) as [c|].
  - rewrite andb_true_iff, negb_true_iff, String.eqb_eq. split.
    + intros (H0 & H1 & <-). by repeat split.
    + intros (H0 & [= ->] & H2). by repeat split.
  - split; [intros [_ H]; discriminate H|intros (_ & H & _); discriminate H].
Qed.

Lemma submissionKey_Some r k :
  submissionKey r = Some k <->
  exists c, r !! 2%nat = Some c /\ retyped c = false /\ k = (toLowerCase (cell 0 r), c).
Proof.
  unfold submissionKey. destruct (r !! 2%nat) as [c|].
  - destruct (retyped c) eqn:E; split.
    + intros H. discriminate H.
    + intros (c' & [= <-] & Hc & _). congruence.
    + intros [= <-]. by exists c.
    + by intros (c' & [= <-] & _ & ->).
  - split; [intros H; discriminate H|intros (c & H & _); discriminate H].
Qed.

Lemma isRecordOf_true sess ident r :
  isRecordOf sess ident r = true <->
  toLowerCase (cell 0 r) = ident /\ r !! 2%nat = Some sess.
Proof.
  unfold isRecordOf. by rewrite andb_true_iff, String.eqb_eq, bool_decide_eq_true.
Qed.

(** The scan matches no row for a session whose name is re-typed. *)
Lemma sameSubmission_retyped email name rows :
  retyped name = true -> existsb (sameSubmission email name) rows = false.
Proof.
  intros Hre. induction rows as [|r rows IH]; simpl; [done|]. rewrite IH, orb_false_r.
  destruct (sameSubmission email name r) eqn:E; [|done].
  apply sameSubmission_true in E as (_ & _ & E). congruence.
Qed.

Lemma ledgerOk_initialSetup ssId ssUrl rollId rollUrl w :
  ledgerOk (initialSetup ssId ssUrl rollId rollUrl w).
Proof.
  unfold ledgerOk, records, rowsOf, attendanceData, openById, initialSetup; simpl.
  destruct (decide (rollId = ssId)) as [->|Hne].
  - rewrite lookup_insert_eq. simpl. constructor.
  - rewrite lookup_insert_ne, lookup_insert_eq by done. simpl. constructor.
Qed.

Lemma serve_ledgerOk now q w : ledgerOk w -> ledgerOk (serve now q w).1.
Proof.
  unfold ledgerOk, records. intros Hok.
  destruct (serve_rows now q w) as [[-> _]|(p & sn & _ & _ & _ & _ & Hex & ->)]; [done|].
  destruct (rowsOf w) as [|h rows] eqn:Hrows; [constructor|].
  unfold records in Hex. rewrite Hrows in Hex. simpl in *.
  rewrite omap_app. cbn [omap list_omap]. unfold submissionKey at 2.
  change ((emailOf p :: _) !! 2%nat) with (Some sn).
  cbv beta iota. destruct (retyped sn) eqn:Hre; [by rewrite app_nil_r|].
  change (cell 0 (emailOf p :: _)) with (emailOf p). rewrite emailOf_lower.
  apply NoDup_app. split; [done|]. split; [|apply NoDup_singleton].
  intros k Hk Hk'. apply list_elem_of_singleton in Hk'. subst k.
  apply list_elem_of_omap in Hk as (r & Hr & Hkey).
  apply submissionKey_Some in Hkey as (c & Hc & Hrc & Hkey).
  injection Hkey as He <-.
  assert (existsb (sameSubmission (emailOf p) sn) rows = true) as Hyes; [|congruence].
  apply existsb_exists. exists r. split; [by apply list_elem_of_In|].
  by apply sameSubmission_true.
Qed.

Lemma run_ledgerOk qs w : ledgerOk w -> ledgerOk (run qs w).1.
Proof.
  revert w. induction qs as [|[now q] qs IH]; intros w Hok; [done|].
  rewrite run_cons; simpl. by apply IH, serve_ledgerOk.
Qed.

(** Distinct keys leave at most one row for a pair whose session name is
    kept as text. *)
Lemma distinct_keys_one_record sess ident rows :
  retyped sess = false ->
  NoDup (omap submissionKey rows) ->
  (length (List.filter (isRecordOf sess ident) rows) <= 1)%nat.
Proof.
  intros Hre. induction rows as [|r rows IH]; simpl; [lia|].
  destruct (isRecordOf sess ident r) eqn:E.
  - apply isRecordOf_true in E as [E0 E2].
    assert (submissionKey r = Some (ident, sess)) as ->.
    { apply submissionKey_Some. exists sess. by rewrite E0. }
    intros Hnd. apply NoDup_cons in Hnd as [Hr Hnd].
    destruct (List.filter _ rows) as [|r' ?] eqn:Hf; simpl; [lia|].
    exfalso. apply Hr.
    assert (In r' (List.filter (isRecordOf sess ident) rows)) as Hin by (rewrite Hf; by left).
    apply filter_In in Hin as [Hin E'].
    apply isRecordOf_true in E' as [E0' E2'].
    apply list_elem_of_omap. exists r'. split; [by apply list_elem_of_In|].
    apply submissionKey_Some. exists sess. by rewrite E0'.
  - intros Hnd. apply IH. destruct (submissionKey r); [|done].
    by apply NoDup_cons in Hnd as [_ Hnd].
Qed.

(** C1, a defect of the script.  The scan for an earlier submission compares
    the email cell through [toString()] but the session-name cell with a
    bare [===], so it matches no row of a session whose name Sheets has
    re-typed (a name such as 101).  In such a session every well-formed
    submission is answered 'Attendance recorded' and adds its row, whatever
    the sheet already holds: an identity that has a record in the session
    gets another one, where the specification requires the submission to be
    refused as a duplicate. *)
Theorem duplicate_scan_misses_retyped_name
    (parameter : gmap string string) (now : Z) (w : world) (sess : string)
    (d : list (list string)) :
  retyped sess = true ->
  emailOf parameter <> ""%string ->
  nameOf parameter <> ""%string ->
  accepting w = Some sess ->
  attendanceData w = Some d ->
  (handleStudentSubmission parameter now w).2 = inr RSubmitOk /\
  attendanceData (handleStudentSubmission parameter now w).1
  = Some (d ++ [[emailOf parameter; lookupRollNumber (emailOf parameter) w; sess;
                 formatDate now "dd/MM/yyyy"%string; formatDate now "HH:mm:ss"%string;
                 toISOString now]]).
Proof.
  intros Hre He Hn Hacc Hd.
  destruct (handleStudentSubmission_ends parameter now w)
    as [[?|?]|? ? Hno|sn e _ _ _ Hnone|sn d' _ _ Hacc' Hd' Hex|sn d' id _ _ Hacc' Hid Hd' Hex];
    try done; try congruence.
  - rewrite Hacc in Hacc'. injection Hacc' as <-.
    by rewrite (sameSubmission_retyped _ _ _ Hre) in Hex.
  - rewrite Hacc in Hacc'. injection Hacc' as <-. split; [done|]. cbn [fst].
    rewrite (attendanceData_appendRow _ _ _ _ Hid Hd'). congruence.
Qed.

(** X26.  For a session name and an identity that Sheets keeps as text
    (their cells then read back as they were written) the scan does its
    work.  From a ledger in which no two records can be matched by the same
    email and session name (a fresh setup has none), after every sequence of
    requests the identity has at most one record in the session, and a
    well-formed submission by it when it has one is answered 'You have
    already submitted for this session' and leaves the world as it was. *)
Theorem text_name_at_most_once (w : world) (qs : list (Z * request)) (sess ident : string) :
  retyped sess = false ->
  retyped ident = false ->
  ledgerOk w ->
  (length (recordsFor sess ident (run qs w).1) <= 1)%nat /\
  (forall parameter now,
      accepting (run qs w).1 = Some sess ->
      emailOf parameter = ident -> ident <> ""%string -> nameOf parameter <> ""%string ->
      recordsFor sess ident (run qs w).1 <> [] ->
      handleStudentSubmission parameter now (run qs w).1
      = ((run qs w).1, inr (RError "You have already submitted for this session"))).
Proof.
  intros Hre _ Hok. split.
  - apply distinct_keys_one_record; [done|]. by apply run_ledgerOk.
  - set (w' := (run qs w).1). intros parameter now Hacc <- He Hn Hrec.
    assert (existsb (sameSubmission (emailOf parameter) sess) (records w') = true) as Hdup.
    { unfold recordsFor in Hrec.
      destruct (List.filter _ (records w')) as [|r found] eqn:Hf; [done|].
      assert (In r (r :: found)) as Hin by (by left). rewrite <- Hf in Hin.
      apply filter_In in Hin as [Hin E]. apply isRecordOf_true in E as [E0 E2].
      apply existsb_exists. exists r. split; [done|].
      by apply sameSubmission_true. }
    unfold records, rowsOf in Hdup.
    destruct (handleStudentSubmission_ends parameter now w')
      as [[?|?]|? ? Hno|sn e _ _ _ Hnone|sn d _ _ Hacc' _ _|sn d id _ _ Hacc' _ Hd Hex];
      try done; try congruence.
    + by rewrite Hnone in Hdup.
    + rewrite Hd in Hdup. simpl in Hdup. congruence.
Qed.

End Ledger.

(** ** The session: start, stop and the one current session *)

Section Sessions.

Lemma serve_stop now w : serve now stop w = stopSession w.
Proof. unfold serve, stop, doPost. by rewrite lookup_singleton_eq. Qed.

Lemma serve_start now n w : serve now (start n) w = startSession (Some n) now w.
Proof.
  unfold serve, start, doPost.
  rewrite lookup_insert_ne, lookup_singleton_eq by done. simpl.
  by rewrite lookup_insert_eq.
Qed.

Lemma trim_nonempty n : trim n <> ""%string -> falsy n = false.
Proof. intros H. apply falsy_false. by intros ->. Qed.

(** With a usable name and the sheet set up, [startSession] goes through. *)
Lemma startSession_succeeds n now w :
  trim n <> ""%string ->
  falsyOpt (SHEET_ID w) = false ->
  exists url,
    startSession (Some n) now w
    = (setSessionState (Some (Session (trim n) (toISOString now) true)) w,
       RStartOk (trim n) url).
Proof.
  intros Hn Hid. unfold startSession. rewrite (trim_nonempty _ Hn).
  destruct (String.eqb_spec (trim n) ""); [done|]. simpl.
  destruct (SHEET_ID w) as [id|]; [|done]. simpl in Hid. rewrite Hid. eauto.
Qed.

(** C7.  [stopSession] on a session that is no longer active (stopped by
    hand or by the countdown) answers with success and leaves the whole
    world, and so everything recorded about that session, as it was. *)
Theorem stopSession_terminal_noop (w : world) (s : sessionObj) (now : Z) :
  getSessionState w = Some s ->
  active s = false ->
  stopSession w = (w, RStopOk (sessionName s)) /\
  serve now stop w = (w, RStopOk (sessionName s)).
Proof.
  intros Hs Ha. rewrite serve_stop. split; unfold stopSession; rewrite Hs.
  all: unfold getSessionState in Hs; destruct w as [a b c d]; simpl in *; subst c.
  all: by destruct s as [n t [|]|].
Qed.

(** C9, as amended.  A missing name, or one that is empty after trimming, is
    refused with 'Session name is required' and nothing is stored.  A name
    that is not empty after trimming starts a session whose stored name is
    the trimmed input when the SHEET_ID property is set, and is refused with
    'Run initialSetup() first from the script editor', storing nothing, when
    it is not. *)
Theorem startSession_outcome (n : string) (now : Z) (w : world) :
  startSession None now w = (w, RError "Session name is required") /\
  (trim n = ""%string ->
     startSession (Some n) now w = (w, RError "Session name is required")) /\
  (trim n <> ""%string -> falsyOpt (SHEET_ID w) = false ->
     exists url,
       startSession (Some n) now w
       = (setSessionState (Some (Session (trim n) (toISOString now) true)) w,
          RStartOk (trim n) url)) /\
  (trim n <> ""%string -> falsyOpt (SHEET_ID w) = true ->
     startSession (Some n) now w
     = (w, RError "Run initialSetup() first from the script editor")).
Proof.
  split; [done|]. split; [|split].
  - intros E. unfold startSession. by rewrite E, orb_true_r.
  - apply startSession_succeeds.
  - intros Hn Hid. unfold startSession. rewrite (trim_nonempty _ Hn).
    destruct (String.eqb_spec (trim n) ""); [done|]. simpl.
    destruct (SHEET_ID w) as [id|]; [|done]. simpl in Hid. by rewrite Hid.
Qed.

(** While no other session is started, the current session keeps its name. *)
Lemma serve_keeps_name now q w N :
  isStart q = false ->
  (exists t a, currentSession w = Some (Session N t a)) ->
  exists t a, currentSession (serve now q w).1 = Some (Session N t a).
Proof.
  intros Hq (t & a & Hc).
  destruct (serve_currentSession now q w) as [->|[[Hq' _]|[_ ->]]]; [eauto|congruence|].
  rewrite Hc. simpl. eauto.
Qed.

Lemma run_rows_under_name qs w N :
  Forall (fun tq => isStart tq.2 = false) qs ->
  (exists t a, currentSession w = Some (Session N t a)) ->
  exists extra,
    rowsOf (run qs w).1 = rowsOf w ++ extra /\
    Forall (fun r => cell 2 r = N) extra /\
    length extra = length (List.filter isSubmitOk (run qs w).2).
Proof.
  revert w. induction qs as [|[now q] qs IH]; intros w Hqs Hc.
  - exists []. simpl. by rewrite app_nil_r.
  - apply Forall_cons in Hqs as [Hq Hqs]. simpl in Hq.
    rewrite run_cons. cbn [fst snd].
    destruct (IH (serve now q w).1 Hqs (serve_keeps_name now q w N Hq Hc))
      as (extra & -> & Hall & Hlen).
    destruct (serve_rows now q w) as [[-> Hno]|(p & sn & _ & Hok & _ & Hacc & _ & ->)].
    + exists extra. cbn [List.filter]. by rewrite Hno.
    + eexists (_ :: extra). rewrite <- app_assoc. split; [done|].
      cbn [List.filter]. rewrite Hok. simpl. split; [|by rewrite Hlen].
      constructor; [|done].
      destruct Hc as (t & a & Hc). unfold accepting, getSessionState in Hacc.
      rewrite Hc in Hacc. destruct a; [|done]. by injection Hacc as <-.
Qed.

(** C10.  Whatever was stored before, a successful [startSession n] makes
    the session named [trim n] the current, active one; and until the next
    start every accepted submission adds one row, at the end of the sheet,
    whose session name is [trim n]. *)
Theorem startSession_overwrites_current
    (n : string) (now : Z) (w : world) (qs : list (Z * request)) :
  trim n <> ""%string ->
  falsyOpt (SHEET_ID w) = false ->
  Forall (fun tq => isStart tq.2 = false) qs ->
  let w1 := (startSession (Some n) now w).1 in
  getSessionState w1 = Some (Session (trim n) (toISOString now) true) /\
  accepting w1 = Some (trim n) /\
  exists extra,
    rowsOf (run qs w1).1 = rowsOf w1 ++ extra /\
    Forall (fun r => cell 2 r = trim n) extra /\
    length extra = length (List.filter isSubmitOk (run qs w1).2).
Proof.
  intros Hn Hid Hqs w1.
  destruct (startSession_succeeds n now w Hn Hid) as [url E].
  subst w1. rewrite E. cbn [fst].
  split; [done|]. split; [done|].
  apply run_rows_under_name; [done|]. simpl. eauto.
Qed.

(** C4, as amended.  The script has one current session and [stopSession]
    names none: the request deactivates whichever session is current and
    answers with that session's name ('unknown' when nothing is stored).
    From then on no submission is accepted, a well-formed one being told
    'Session is closed', and the stored rows are the same as before. *)
Theorem stopSession_stops_current (w : world) (parameter : gmap string string) (now : Z) :
  let w' := (stopSession w).1 in
  serve now stop w = stopSession w /\
  (forall n t a, getSessionState w = Some (Session n t a) ->
     stopSession w = (setSessionState (Some (Session n t false)) w, RStopOk (Some n))) /\
  (getSessionState w = None -> (stopSession w).2 = RStopOk (Some "unknown"%string)) /\
  getSessionState w' = Some (deactivated (getSessionState w)) /\
  accepting w' = None /\
  rowsOf w' = rowsOf w /\
  (handleStudentSubmission parameter now w').1 = w' /\
  (emailOf parameter <> ""%string -> nameOf parameter <> ""%string ->
   (handleStudentSubmission parameter now w').2 = inr (RError "Session is closed")).
Proof.
  intros w'. subst w'. split; [apply serve_stop|].
  split; [intros n t a Hs; unfold stopSession; by rewrite Hs|].
  split; [intros Hs; unfold stopSession; by rewrite Hs|]. simpl.
  assert (accepting (setSessionState (Some (deactivated (getSessionState w))) w) = None)
    as Hacc.
  { unfold accepting. simpl. by destruct (getSessionState w) as [[? ? ?|]|]. }
  repeat split; try done.
  - destruct (handleStudentSubmission_ends parameter now
               (setSessionState (Some (deactivated (getSessionState w))) w)); try done.
    congruence.
  - intros He Hn.
    destruct (handleStudentSubmission_ends parameter now
               (setSessionState (Some (deactivated (getSessionState w))) w))
      as [[?|?]| | | |]; try done; congruence.
Qed.

(** A request that is neither a stop nor a start that goes through leaves
    the stored session as it is. *)
Lemma serve_keeps_session now q w :
  isStop q = false ->
  isStartOk (serve now q w).2 = false ->
  currentSession (serve now q w).1 = currentSession w.
Proof.
  intros Hstop Hstart. destruct q as [query|[parameter|data]]; simpl in *; [done| |].
  - destruct (handleStudentSubmission_ends parameter now w); try done.
    apply appendRow_props.
  - destruct (data !! "action"%string) as [action|]; [|done].
    destruct (action =? "startSession")%string.
    + destruct (startSession_cases (data !! "sessionName"%string) now w)
        as [[msg E]|(n & url & _ & _ & _ & E)]; rewrite E in *; [done|].
      discriminate Hstart.
    + by rewrite Hstop.
Qed.

Lemma run_keeps_session qs w :
  Forall (fun tq => isStop tq.2 = false) qs ->
  Forall (fun r => isStartOk r = false) (run qs w).2 ->
  currentSession (run qs w).1 = currentSession w.
Proof.
  revert w. induction qs as [|[now q] qs IH]; intros w Hstop Hstart; [done|].
  rewrite run_cons in *. cbn [fst snd] in *.
  apply Forall_cons in Hstop as [Hq Hstop]. apply Forall_cons in Hstart as [Hr Hstart].
  rewrite IH by done. by apply serve_keeps_session.
Qed.

(** Only a start that goes through opens a session. *)
Lemma serve_stays_closed now q w :
  accepting w = None ->
  isStartOk (serve now q w).2 = false ->
  accepting (serve now q w).1 = None.
Proof.
  intros Hacc Hstart. destruct (isStop q) eqn:Hstop.
  - destruct q as [query|[parameter|data]]; simpl in *; try done.
    destruct (data !! "action"%string) as [action|]; [|done].
    destruct (action =? "startSession")%string eqn:E1.
    + destruct (startSession_cases (data !! "sessionName"%string) now w)
        as [[msg E]|(n & url & _ & _ & _ & E)]; rewrite E in *; [done|].
      discriminate Hstart.
    + rewrite Hstop. unfold accepting. simpl.
      by destruct (getSessionState w) as [[? ? ?|]|].
  - unfold accepting, getSessionState in *.
    by rewrite (serve_keeps_session now q w Hstop Hstart).
Qed.

Lemma run_stays_closed qs w :
  accepting w = None ->
  Forall (fun r => isStartOk r = false) (run qs w).2 ->
  accepting (run qs w).1 = None.
Proof.
  revert w. induction qs as [|[now q] qs IH]; intros w Hacc Hstart; [done|].
  rewrite run_cons in *. cbn [fst snd] in *.
  apply Forall_cons in Hstart as [Hr Hstart].
  apply IH; [|done]. by apply serve_stays_closed.
Qed.

Lemma closed_answer parameter now w :
  emailOf parameter <> ""%string -> nameOf parameter <> ""%string ->
  (handleStudentSubmission parameter now w).2 = inr (RError "Session is closed")
  <-> accepting w = None.
Proof.
  intros He Hn. split; intros H.
  - destruct (handleStudentSubmission_ends parameter now w); try done.
  - destruct (handleStudentSubmission_ends parameter now w)
      as [[?|?]| | | |]; try done; congruence.
Qed.

(** C2, as amended.  Time plays no part in the script's decision: a
    well-formed submission is refused with 'Session is closed' exactly when
    no active session is stored, at whatever time it arrives.  The script
    never ends a session by itself: through any requests that hold no stop
    and no start that goes through, the stored session stays as it is, so a
    session that accepts goes on accepting, past its duration too.  After a
    stop request the session stays closed through any requests (unknown
    actions and refused starts included) until a start goes through, and a
    well-formed submission is then refused with 'Session is closed'. *)
Theorem closed_iff_not_active
    (parameter : gmap string string) (now stopTime : Z) (w : world)
    (qs : list (Z * request)) :
  emailOf parameter <> ""%string ->
  nameOf parameter <> ""%string ->
  ((handleStudentSubmission parameter now w).2 = inr (RError "Session is closed")
   <-> accepting w = None) /\
  (Forall (fun tq => isStop tq.2 = false) qs ->
   Forall (fun r => isStartOk r = false) (run qs w).2 ->
   currentSession (run qs w).1 = currentSession w /\
   accepting (run qs w).1 = accepting w /\
   ((handleStudentSubmission parameter now (run qs w).1).2 = inr (RError "Session is closed")
    <-> accepting w = None)) /\
  (Forall (fun r => isStartOk r = false) (run qs (serve stopTime stop w).1).2 ->
   accepting (run qs (serve stopTime stop w).1).1 = None /\
   (handleStudentSubmission parameter now (run qs (serve stopTime stop w).1).1).2
   = inr (RError "Session is closed")).
Proof.
  intros He Hn. split; [by apply closed_answer|]. split.
  - intros Hstop Hstart. pose proof (run_keeps_session qs w Hstop Hstart) as Hc.
    assert (accepting (run qs w).1 = accepting w) as Hacc.
    { unfold accepting, getSessionState. by rewrite Hc. }
    split; [done|]. split; [done|]. rewrite <- Hacc. by apply closed_answer.
  - intros Hstart.
    assert (accepting (run qs (serve stopTime stop w).1).1 = None) as Hacc.
    { apply run_stays_closed; [|done]. rewrite serve_stop. unfold accepting. simpl.
      by destruct (getSessionState w) as [[? ? ?|]|]. }
    split; [done|]. by apply closed_answer.
Qed.

End Sessions.

(** ** Who submits: identity, device and roll number *)

Section Identity.

(** The handler looks at its parameters through [emailOf] and [nameOf]
    only. *)
Lemma handleStudentSubmission_ext parameter parameter' now w :
  emailOf parameter' = emailOf parameter ->
  nameOf parameter' = nameOf parameter ->
  handleStudentSubmission parameter' now w = handleStudentSubmission parameter now w.
Proof.
  intros He Hn. unfold handleStudentSubmission.
  fold (emailOf parameter) (nameOf parameter) (emailOf parameter') (nameOf parameter').
  by rewrite He, Hn.
Qed.

(** C3, as amended.  The script stores no device binding and the handler
    reads only the 'email' and 'name' fields: two submissions that agree on
    these two fields get the same answer and leave the same world, whatever
    else (a device fingerprint included) they carry. *)
Theorem submission_ignores_other_fields
    (parameter parameter' : gmap string string) (now : Z) (w : world) :
  parameter' !! "email"%string = parameter !! "email"%string ->
  parameter' !! "name"%string = parameter !! "name"%string ->
  handleStudentSubmission parameter' now w = handleStudentSubmission parameter now w.
Proof.
  intros He Hn. apply handleStudentSubmission_ext; unfold emailOf, nameOf; congruence.
Qed.

Lemma lookupRollNumber_not_found email w table :
  falsyOpt (ROLL_MAP_ID w) = false ->
  rollMapData w = Some table ->
  (forall r, r ∈ tail table -> toLowerCase (trim (cell 0 r)) <> email) ->
  lookupRollNumber email w = "NOT FOUND"%string.
Proof.
  unfold lookupRollNumber, rollMapData. intros -> Htab Hnone.
  destruct (openById (ROLL_MAP_ID w) w) as [e|ss]; [done|].
  destruct (ssSheets ss) as [|sh rest]; [done|]. simpl in Htab. injection Htab as <-.
  destruct (List.find _ _) as [r|] eqn:Hf; [|done].
  apply find_some in Hf as [Hin Heq]. apply String.eqb_eq in Heq.
  exfalso. apply (Hnone r); [by apply list_elem_of_In|].
  by rewrite toLowerCase_trim.
Qed.

Lemma find_app_skip {A} (f : A -> bool) (pre : list A) (x : A) (post : list A) :
  Forall (fun y => f y = false) pre -> f x = true ->
  List.find f (pre ++ x :: post) = Some x.
Proof.
  intros Hpre Hx. induction Hpre as [|y pre Hy _ IH]; simpl; [by rewrite Hx|].
  by rewrite Hy.
Qed.

(** The lookup stops at the first row under the header that carries the
    identity. *)
Lemma lookupRollNumber_found email w h pre r post :
  falsyOpt (ROLL_MAP_ID w) = false ->
  rollMapData w = Some (h :: pre ++ r :: post) ->
  Forall (fun x => trim (toLowerCase (cell 0 x)) <> email) pre ->
  trim (toLowerCase (cell 0 r)) = email ->
  lookupRollNumber email w = default "LOOKUP ERROR"%string (r !! 1%nat).
Proof.
  unfold lookupRollNumber, rollMapData. intros -> Htab Hpre Hr.
  destruct (openById (ROLL_MAP_ID w) w) as [e|ss]; [done|].
  destruct (ssSheets ss) as [|sh others]; [done|]. simpl in Htab. injection Htab as ->.
  cbn [tail]. rewrite (find_app_skip _ pre r post); [by destruct (r !! 1%nat)| |].
  - eapply Forall_impl; [exact Hpre|]. intros x Hx. by apply String.eqb_neq.
  - by apply String.eqb_eq.
Qed.

(** A submission that passes the checks is answered 'Attendance recorded'
    and its row is the new last row of the sheet. *)
Lemma handleStudentSubmission_records parameter now w sn d :
  emailOf parameter <> ""%string -> nameOf parameter <> ""%string ->
  accepting w = Some sn ->
  attendanceData w = Some d ->
  existsb (sameSubmission (emailOf parameter) sn) (tail d) = false ->
  (handleStudentSubmission parameter now w).2 = inr RSubmitOk /\
  rowsOf (handleStudentSubmission parameter now w).1
  = d ++ [[emailOf parameter; lookupRollNumber (emailOf parameter) w; sn;
           formatDate now "dd/MM/yyyy"%string; formatDate now "HH:mm:ss"%string;
           toISOString now]].
Proof.
  intros Hne Hnn Hacc Hd Hex.
  destruct (handleStudentSubmission_ends parameter now w)
    as [[?|?]|? ? Hno|sn' e _ _ _ Hnone|sn' d' _ _ Hacc' Hd' Hex'
        |sn' d' id' _ _ Hacc' Hid' Hd' Hex'];
    try done; try congruence.
  rewrite Hacc in Hacc'. injection Hacc' as <-. split; [done|]. cbn [fst].
  unfold rowsOf. rewrite (attendanceData_appendRow _ _ _ _ Hid' Hd'). simpl. congruence.
Qed.

(** C8.  Roll numbers are resolved without regard to letter case, on both
    sides.  Submissions whose emails differ only by case are the same
    submission and resolve to the same roll number, and a roll-map row
    carries an identity when its email cell, trimmed and in lower case, is
    that identity: the first such row gives the roll number that is
    recorded.  The lookup cannot fail a submission: one that passes the
    checks is answered 'Attendance recorded' and its row, with what the
    lookup returned, becomes the last row of the sheet; when no row of the
    roll map carries the identity, that row holds 'NOT FOUND' as its roll
    number. *)
Theorem lookup_case_insensitive_never_fatal
    (parameter parameter' : gmap string string) (now : Z) (w : world) :
  toLowerCase (default ""%string (parameter' !! "email"%string))
    = toLowerCase (default ""%string (parameter !! "email"%string)) ->
  parameter' !! "name"%string = parameter !! "name"%string ->
  let row rollNumber sn :=
    [emailOf parameter; rollNumber; sn;
     formatDate now "dd/MM/yyyy"%string; formatDate now "HH:mm:ss"%string;
     toISOString now] in
  handleStudentSubmission parameter' now w = handleStudentSubmission parameter now w /\
  lookupRollNumber (emailOf parameter') w = lookupRollNumber (emailOf parameter) w /\
  forall sn d,
    emailOf parameter <> ""%string -> nameOf parameter <> ""%string ->
    accepting w = Some sn -> attendanceData w = Some d ->
    existsb (sameSubmission (emailOf parameter) sn) (tail d) = false ->
    (handleStudentSubmission parameter now w).2 = inr RSubmitOk /\
    rowsOf (handleStudentSubmission parameter now w).1
    = d ++ [row (lookupRollNumber (emailOf parameter) w) sn] /\
    (forall table,
       falsyOpt (ROLL_MAP_ID w) = false ->
       rollMapData w = Some table ->
       (forall r, r ∈ tail table -> toLowerCase (trim (cell 0 r)) <> emailOf parameter) ->
       rowsOf (handleStudentSubmission parameter now w).1 = d ++ [row "NOT FOUND"%string sn]) /\
    (forall h pre r post rollNumber,
       falsyOpt (ROLL_MAP_ID w) = false ->
       rollMapData w = Some (h :: pre ++ r :: post) ->
       Forall (fun x => toLowerCase (trim (cell 0 x)) <> emailOf parameter) pre ->
       toLowerCase (trim (cell 0 r)) = emailOf parameter ->
       r !! 1%nat = Some rollNumber ->
       rowsOf (handleStudentSubmission parameter now w).1 = d ++ [row rollNumber sn]).
Proof.
  intros He Hn row.
  assert (emailOf parameter' = emailOf parameter) as Hemail.
  { unfold emailOf. by rewrite !toLowerCase_trim, He. }
  assert (nameOf parameter' = nameOf parameter) as Hname.
  { unfold nameOf. by rewrite Hn. }
  split; [by apply handleStudentSubmission_ext|]. split; [by rewrite Hemail|].
  intros sn d Hne Hnn Hacc Hd Hex.
  destruct (handleStudentSubmission_records parameter now w sn d Hne Hnn Hacc Hd Hex)
    as [Hok Hrows].
  split; [done|]. split; [done|]. split.
  - intros table Hmap Htab Habsent. rewrite Hrows.
    by rewrite (lookupRollNumber_not_found _ _ _ Hmap Htab Habsent).
  - intros h pre r post rollNumber Hmap Htab Hpre Hr Hroll. rewrite Hrows.
    rewrite (lookupRollNumber_found _ _ h pre r post Hmap Htab), Hroll; [done| |].
    + eapply Forall_impl; [exact Hpre|]. intros x Hx. by rewrite <- toLowerCase_trim.
    + by rewrite <- toLowerCase_trim.
Qed.

End Identity.

(** ** Names, rows and time *)

Section History.

Lemma appendRow_urlAt id' id name r w : urlAt id' (appendRow id name r w) = urlAt id' w.
Proof.
  unfold urlAt, appendRow. destruct (drive w !! id) as [ss|] eqn:Hss; [|done]. simpl.
  destruct (decide (id = id')) as [<-|Hne].
  - by rewrite lookup_insert_eq, Hss.
  - by rewrite lookup_insert_ne.
Qed.

Lemma serve_urlAt id now q w : urlAt id (serve now q w).1 = urlAt id w.
Proof.
  destruct q as [parameter|[parameter|data]]; simpl; [done| |].
  - destruct (handleStudentSubmission_ends parameter now w); simpl; try done.
    apply appendRow_urlAt.
  - destruct (data !! "action"%string) as [action|]; [|done].
    destruct (action =? "startSession")%string.
    + destruct (startSession_cases (data !! "sessionName"%string) now w)
        as [[msg ->]|(n & url & _ & _ & _ & ->)]; done.
    + by destruct (action =? "stopSession")%string.
Qed.

Lemma run_urlAt id qs w : urlAt id (run qs w).1 = urlAt id w.
Proof.
  revert w. induction qs as [|[now q] qs IH]; intros w; [done|].
  rewrite run_cons; simpl. by rewrite IH, serve_urlAt.
Qed.

(** The answer of [startSession] is a function of the name as trimmed, of
    SHEET_ID and of the sheet's URL. *)
Lemma startSession_answer n n' now now' w w' :
  trim n' = trim n ->
  SHEET_ID w' = SHEET_ID w ->
  (forall id, urlAt id w' = urlAt id w) ->
  (startSession (Some n') now' w').2 = (startSession (Some n) now w).2.
Proof.
  intros Hn Hid Hurl. unfold startSession.
  assert (falsy n' || (trim n' =? "")%string = falsy n || (trim n =? "")%string) as ->.
  { rewrite Hn. destruct (String.eqb_spec (trim n) ""); [by rewrite !orb_true_r|].
    by rewrite !trim_nonempty by congruence. }
  destruct (falsy n || (trim n =? "")%string); [done|].
  rewrite Hid. destruct (SHEET_ID w) as [id|]; [|done].
  destruct (falsy id); [done|]. simpl. rewrite Hn. f_equal.
  specialize (Hurl id). unfold urlAt in Hurl.
  destruct (drive w' !! id), (drive w !! id); simpl in *; congruence.
Qed.

(** C5, as amended.  [startSession] makes no access code and looks for no
    collision: a session is known by its trimmed name alone.  Once a name
    has started a session, then after any requests whatever a name that
    trims to the same text starts a session again, with the same answer and
    the same stored name. *)
Theorem startSession_reuses_name
    (n n' : string) (now now' : Z) (w : world) (qs : list (Z * request)) :
  trim n <> ""%string ->
  falsyOpt (SHEET_ID w) = false ->
  trim n' = trim n ->
  let w1 := (run qs (startSession (Some n) now w).1).1 in
  (startSession (Some n') now' w1).2 = (startSession (Some n) now w).2 /\
  (exists url, (startSession (Some n) now w).2 = RStartOk (trim n) url) /\
  getSessionState (startSession (Some n') now' w1).1
  = Some (Session (trim n) (toISOString now') true).
Proof.
  intros Hn Hid Hn' w1.
  destruct (startSession_succeeds n now w Hn Hid) as [url E].
  assert (SHEET_ID w1 = SHEET_ID w) as Hid1.
  { subst w1. rewrite (proj1 (run_ids _ _)), E. done. }
  split; [|split].
  - apply startSession_answer; [done|done|].
    intros id. subst w1. rewrite run_urlAt, E. done.
  - rewrite E. eauto.
  - destruct (startSession_succeeds n' now' w1) as [url' E'];
      [congruence|by rewrite Hid1|].
    rewrite E', Hn'. done.
Qed.

Lemma getResponses_rows sessionFilter w h rest :
  falsyOpt (SHEET_ID w) = false ->
  rowsOf w = h :: rest ->
  getResponses sessionFilter w =
    let kept := List.filter
                  (fun r => negb (filteredOut sessionFilter (indexOf "Session Name" h) r))
                  rest in
    RResponses h (rowObject h <$> kept) (length (rowObject h <$> kept)).
Proof.
  intros Hid Hrows. unfold getResponses. rewrite Hid.
  unfold rowsOf, attendanceData in Hrows.
  destruct (openById (SHEET_ID w) w) as [e|ss]; [done|].
  destruct (getSheetByName "Attendance" ss) as [sh|]; [|done].
  simpl in Hrows. rewrite Hrows. by destruct rest.
Qed.



End History.

(** ** escapeHtml *)

Section EscapeHtml.

Lemma append_cons x (a b : string) : (String x a +:+ b = String x (a +:+ b))%string.
Proof. reflexivity. Qed.

Lemma append_assoc (a b c : string) : ((a +:+ b) +:+ c = a +:+ (b +:+ c))%string.
Proof. induction a as [|x a IH]; [done|]. by rewrite !append_cons, IH. Qed.

Lemma append_empty_r (a : string) : (a +:+ "" = a)%string.
Proof. induction a as [|x a IH]; [done|]. by rewrite append_cons, IH. Qed.

Lemma includesChar_app c a b :
  includesChar c (a +:+ b) = includesChar c a || includesChar c b.
Proof.
  induction a as [|x a IH]; [done|].
  rewrite append_cons. simpl. by rewrite IH, orb_assoc.
Qed.

Lemma replaceAll_app c rep a b :
  replaceAll c rep (a +:+ b) = (replaceAll c rep a +:+ replaceAll c rep b)%string.
Proof.
  induction a as [|x a IH]; [done|].
  rewrite append_cons. simpl. destruct (Ascii.eqb x c); rewrite IH; [|done].
  by rewrite append_assoc.
Qed.

Lemma escapeEach_app a b : escapeEach (a +:+ b) = (escapeEach a +:+ escapeEach b)%string.
Proof.
  induction a as [|x a IH]; [done|].
  rewrite append_cons. simpl. by rewrite IH, append_assoc.
Qed.

(** The four passes do not see each other's output: together they escape
    each character on its own. *)
Lemma escapeHtml_each text : escapeHtml text = escapeEach text.
Proof.
  unfold escapeHtml. induction text as [|c r IH]; [done|].
  cbn [replaceAll escapeEach]. unfold escapeChar.
  destruct (Ascii.eqb_spec c "&") as [->|H1].
  { rewrite !replaceAll_app, IH. reflexivity. }
  cbn [replaceAll]. destruct (Ascii.eqb_spec c "<") as [->|H2].
  { rewrite !replaceAll_app, IH. reflexivity. }
  cbn [replaceAll]. destruct (Ascii.eqb_spec c ">") as [->|H3].
  { rewrite !replaceAll_app, IH. reflexivity. }
  cbn [replaceAll]. destruct (Ascii.eqb_spec c dquote) as [->|H4].
  { rewrite IH. reflexivity. }
  by rewrite IH.
Qed.

Lemma escapeChar_clean c :
  includesChar "<" (escapeChar c) = false /\
  includesChar ">" (escapeChar c) = false /\
  includesChar dquote (escapeChar c) = false.
Proof.
  unfold escapeChar.
  destruct (Ascii.eqb_spec c "&"); [done|].
  destruct (Ascii.eqb_spec c "<"); [done|].
  destruct (Ascii.eqb_spec c ">"); [done|].
  destruct (Ascii.eqb_spec c dquote); [done|].
  simpl. rewrite !orb_false_r. repeat split; by apply Ascii.eqb_neq.
Qed.

(** X1.  The escaped text holds no '<', no '>' and no double quote. *)
Theorem escapeHtml_no_markup (text : string) :
  includesChar "<" (escapeHtml text) = false /\
  includesChar ">" (escapeHtml text) = false /\
  includesChar dquote (escapeHtml text) = false.
Proof.
  rewrite escapeHtml_each. induction text as [|c r (IH1 & IH2 & IH3)]; [done|].
  simpl. rewrite !includesChar_app, IH1, IH2, IH3.
  destruct (escapeChar_clean c) as (-> & -> & ->). done.
Qed.

Lemma escapeChar_prefix_free c1 c2 r1 r2 :
  (escapeChar c1 +:+ r1 = escapeChar c2 +:+ r2)%string -> c1 = c2 /\ r1 = r2.
Proof.
  unfold escapeChar.
  destruct (Ascii.eqb_spec c1 "&"); [|destruct (Ascii.eqb_spec c1 "<");
    [|destruct (Ascii.eqb_spec c1 ">"); [|destruct (Ascii.eqb_spec c1 dquote)]]];
  (destruct (Ascii.eqb_spec c2 "&"); [|destruct (Ascii.eqb_spec c2 "<");
    [|destruct (Ascii.eqb_spec c2 ">"); [|destruct (Ascii.eqb_spec c2 dquote)]]]);
  simpl; intros H; simplify_eq; done.
Qed.

(** X2.  Escaping loses nothing: two texts with the same escaped form are
    the same text. *)
Theorem escapeHtml_injective (a b : string) :
  escapeHtml a = escapeHtml b -> a = b.
Proof.
  rewrite !escapeHtml_each. revert b.
  induction a as [|x a IH]; intros [|y b] H; simpl in H.
  - done.
  - exfalso. unfold escapeChar in H.
    repeat (match type of H with context [if ?t then _ else _] => destruct t end);
      discriminate H.
  - exfalso. unfold escapeChar in H.
    repeat (match type of H with context [if ?t then _ else _] => destruct t end);
      discriminate H.
  - apply escapeChar_prefix_free in H as [-> H]. by rewrite (IH _ H).
Qed.

(** X3.  A text without '&', '<', '>' and double quote is left as it is, and
    escaping a concatenation is concatenating the escaped parts. *)
Theorem escapeHtml_plain_and_app (a b : string) :
  (includesChar "&" a = false -> includesChar "<" a = false ->
   includesChar ">" a = false -> includesChar dquote a = false ->
   escapeHtml a = a) /\
  escapeHtml (a +:+ b) = (escapeHtml a +:+ escapeHtml b)%string.
Proof.
  rewrite !escapeHtml_each. split; [|apply escapeEach_app].
  induction a as [|x a IH]; simpl; [done|].
  intros H1 H2 H3 H4.
  apply orb_false_iff in H1 as [E1 H1], H2 as [E2 H2], H3 as [E3 H3], H4 as [E4 H4].
  unfold escapeChar. rewrite E1, E2, E3, E4. simpl. by rewrite IH.
Qed.

End EscapeHtml.

(** ** The form page, the setup and the stop *)

Section Page.

(** X4.  The page and the handler agree: the closed notice is served
    exactly when a well-formed submission would be answered 'Session is
    closed', and the form exactly while a session accepts, showing that
    session's name after [escapeHtml]; a GET whose 'action' is missing or
    empty, whatever else it carries, is answered with this page. *)
Theorem form_page_agrees_with_handler
    (parameter query : gmap string string) (now : Z) (w : world) :
  emailOf parameter <> ""%string ->
  nameOf parameter <> ""%string ->
  (serveStudentForm w = RForm false None
   <-> (handleStudentSubmission parameter now w).2 = inr (RError "Session is closed")) /\
  (forall shown,
      serveStudentForm w = RForm true shown
      <-> exists n, accepting w = Some n /\ shown = Some (escapeHtml n)) /\
  (falsyOpt (query !! "action"%string) = true -> doGet query w = serveStudentForm w).
Proof.
  intros He Hn.
  assert (serveStudentForm w = RForm false None <-> accepting w = None) as Hclosed.
  { unfold serveStudentForm, accepting.
    by destruct (getSessionState w) as [[m t [|]|]|]. }
  split; [|split].
  - rewrite Hclosed. split; intros H.
    + destruct (handleStudentSubmission_ends parameter now w)
        as [[?|?]| | | |]; try done; congruence.
    + destruct (handleStudentSubmission_ends parameter now w); try done.
  - intros shown. unfold serveStudentForm, accepting.
    destruct (getSessionState w) as [[m t [|]|]|]; split;
      try (intros H; discriminate H); try (intros (n & H & _); discriminate H).
    + intros [= <-]. by exists m.
    + by intros (n & [= <-] & ->).
  - unfold doGet. destruct (query !! "action"%string) as [action|]; [|done].
    simpl. by intros ->.
Qed.

(** X5.  Stopping twice is stopping once: the second [stopSession] stores
    what the first one stored. *)
Theorem stopSession_idempotent (w : world) :
  (stopSession (stopSession w).1).1 = (stopSession w).1 /\
  accepting (stopSession w).1 = None.
Proof.
  unfold stopSession, accepting, setSessionState, getSessionState. simpl.
  by destruct (currentSession w) as [[n t a|]|].
Qed.

Lemma appendRow_drive_other id id' name r w :
  id' <> id -> drive (appendRow id name r w) !! id' = drive w !! id'.
Proof.
  intros Hne. unfold appendRow. destruct (drive w !! id); [|done]. simpl.
  by rewrite lookup_insert_ne.
Qed.

(** A request writes no file but the one SHEET_ID names. *)
Lemma serve_drive_other now q w id :
  SHEET_ID w <> Some id -> drive (serve now q w).1 !! id = drive w !! id.
Proof.
  intros Hne. destruct q as [parameter|[parameter|data]]; simpl; [done| |].
  - destruct (handleStudentSubmission_ends parameter now w)
      as [ | | | |sn d id0 _ _ _ Hid _ _]; simpl; try done.
    apply appendRow_drive_other. congruence.
  - destruct (data !! "action"%string) as [action|]; [|done].
    destruct (action =? "startSession")%string.
    + destruct (startSession_cases (data !! "sessionName"%string) now w)
        as [[msg ->]|(n & url & _ & _ & _ & ->)]; done.
    + by destruct (action =? "stopSession")%string.
Qed.

Lemma run_drive_other qs w id :
  SHEET_ID w <> Some id -> drive (run qs w).1 !! id = drive w !! id.
Proof.
  revert w. induction qs as [|[now q] qs IH]; intros w Hne; [done|].
  rewrite run_cons. cbn [fst]. rewrite IH; [by apply serve_drive_other|].
  by rewrite (proj1 (serve_ids now q w)).
Qed.

(** The lookup reads ROLL_MAP_ID and the file it names, nothing else. *)
Lemma lookupRollNumber_ext w w' :
  ROLL_MAP_ID w' = ROLL_MAP_ID w ->
  (forall id, ROLL_MAP_ID w = Some id -> drive w' !! id = drive w !! id) ->
  rollMapData w' = rollMapData w /\
  forall email, lookupRollNumber email w' = lookupRollNumber email w.
Proof.
  intros Hid Hfile. unfold rollMapData, lookupRollNumber, openById. rewrite Hid.
  destruct (ROLL_MAP_ID w) as [id|]; [|done].
  by rewrite (Hfile id eq_refl).
Qed.

(** X6.  Requests never rewire the script and never write the roll map:
    after any requests SHEET_ID, ROLL_MAP_ID and the URL of every file are
    what they were, and, when the roll map is not the attendance file
    itself, so are the roll map's table and every lookup in it. *)
Theorem requests_keep_setup (qs : list (Z * request)) (w : world) :
  SHEET_ID (run qs w).1 = SHEET_ID w /\
  ROLL_MAP_ID (run qs w).1 = ROLL_MAP_ID w /\
  (forall id, urlAt id (run qs w).1 = urlAt id w) /\
  (ROLL_MAP_ID w <> SHEET_ID w ->
   rollMapData (run qs w).1 = rollMapData w /\
   (forall email, lookupRollNumber email (run qs w).1 = lookupRollNumber email w)).
Proof.
  destruct (run_ids qs w) as [H1 H2].
  split; [done|]. split; [done|]. split; [intros id; apply run_urlAt|].
  intros Hne. apply lookupRollNumber_ext; [done|].
  intros id Hid. apply run_drive_other. congruence.
Qed.

(** X7.  [initialSetup], given two distinct file ids (the sheet's not
    empty), leaves an attendance sheet with the header and no record, and
    the two sample rows in the roll map; it keeps the stored session, so a
    session that was accepting goes on accepting and a well-formed
    submission to it is answered 'Attendance recorded', whoever had
    submitted before, its row being the one record of the new sheet. *)
Theorem initialSetup_fresh_ledger
    (ssId ssUrl rollId rollUrl : string) (w : world)
    (parameter : gmap string string) (now : Z) :
  rollId <> ssId ->
  ssId <> ""%string ->
  let w' := initialSetup ssId ssUrl rollId rollUrl w in
  attendanceData w' = Some [attendanceHeader] /\
  rollMapData w' = Some rollMapInitial /\
  records w' = [] /\
  getResponses None w' = RResponses attendanceHeader [] 0 /\
  getSessionState w' = getSessionState w /\
  (forall sn,
      emailOf parameter <> ""%string -> nameOf parameter <> ""%string ->
      accepting w = Some sn ->
      (handleStudentSubmission parameter now w').2 = inr RSubmitOk /\
      records (handleStudentSubmission parameter now w').1
      = [[emailOf parameter; lookupRollNumber (emailOf parameter) w'; sn;
          formatDate now "dd/MM/yyyy"%string; formatDate now "HH:mm:ss"%string;
          toISOString now]]).
Proof.
  intros Hne Hid w'.
  assert (attendanceData w' = Some [attendanceHeader]) as Hatt.
  { unfold w', attendanceData, openById, initialSetup. simpl.
    by rewrite lookup_insert_ne, lookup_insert_eq. }
  split; [exact Hatt|]. split.
  { unfold w', rollMapData, openById, initialSetup. simpl.
    by rewrite lookup_insert_eq. }
  split; [unfold records, rowsOf; by rewrite Hatt|]. split.
  { rewrite (getResponses_rows None w' attendanceHeader []); [done| |].
    - simpl. by apply falsy_false.
    - unfold rowsOf. by rewrite Hatt. }
  split; [done|].
  intros sn He Hn Hacc.
  assert (accepting w' = Some sn) as Hacc' by exact Hacc.
  destruct (handleStudentSubmission_records parameter now w' sn [attendanceHeader]
              He Hn Hacc' Hatt eq_refl) as [Hok Hrows].
  split; [done|]. unfold records. by rewrite Hrows.
Qed.

End Page.

(** ** Roll numbers and responses *)

Section Reading.

(** X8.  The first row under the header whose email, trimmed and in lower
    case, is the identity decides the lookup, and rows further down with the
    same email are not looked at: its second cell is the roll number, and
    when it has no second cell the lookup answers 'LOOKUP ERROR'. *)
Theorem lookupRollNumber_first_match
    (email : string) (w : world) (h r : list string) (pre post : list (list string)) :
  falsyOpt (ROLL_MAP_ID w) = false ->
  rollMapData w = Some (h :: pre ++ r :: post) ->
  Forall (fun x => trim (toLowerCase (cell 0 x)) <> email) pre ->
  trim (toLowerCase (cell 0 r)) = email ->
  (forall rollNumber, r !! 1%nat = Some rollNumber -> lookupRollNumber email w = rollNumber) /\
  (r !! 1%nat = None -> lookupRollNumber email w = "LOOKUP ERROR"%string).
Proof.
  intros Hmap Htab Hpre Hr.
  rewrite (lookupRollNumber_found email w h pre r post Hmap Htab Hpre Hr).
  split; [by intros rollNumber ->|by intros ->].
Qed.

(** X9.  What the lookup can return: 'NO MAP' when ROLL_MAP_ID is unset or
    empty, 'LOOKUP ERROR' when the roll map cannot be read, and otherwise
    'NOT FOUND', when no row under the header has the identity asked for as
    its email (trimmed and in lower case), or else the second cell of a row
    that has, 'LOOKUP ERROR' standing in for a second cell that is not
    there. *)
Theorem lookupRollNumber_sound (email : string) (w : world) :
  (falsyOpt (ROLL_MAP_ID w) = true -> lookupRollNumber email w = "NO MAP"%string) /\
  (falsyOpt (ROLL_MAP_ID w) = false -> rollMapData w = None ->
   lookupRollNumber email w = "LOOKUP ERROR"%string) /\
  (forall table, falsyOpt (ROLL_MAP_ID w) = false -> rollMapData w = Some table ->
   (lookupRollNumber email w = "NOT FOUND"%string /\
    forall r, r ∈ tail table -> trim (toLowerCase (cell 0 r)) <> email) \/
   exists r, r ∈ tail table /\ trim (toLowerCase (cell 0 r)) = email /\
             (r !! 1%nat = Some (lookupRollNumber email w) \/
              r !! 1%nat = None /\ lookupRollNumber email w = "LOOKUP ERROR"%string)).
Proof.
  unfold lookupRollNumber, rollMapData. split; [by intros ->|]. split.
  - intros -> Hnone. destruct (openById (ROLL_MAP_ID w) w) as [e|ss]; [done|].
    by destruct (ssSheets ss).
  - intros table -> Htab. destruct (openById (ROLL_MAP_ID w) w) as [e|ss]; [done|].
    destruct (ssSheets ss) as [|sh others]; [done|]. simpl in Htab. injection Htab as <-.
    destruct (List.find _ _) as [r|] eqn:Hf.
    + right. apply find_some in Hf as [Hin Heq]. exists r.
      split; [by apply list_elem_of_In|]. split; [by apply String.eqb_eq|].
      destruct (r !! 1%nat); [by left|by right].
    + left. split; [done|]. intros r Hr.
      apply String.eqb_neq. apply (find_none _ _ Hf). by apply list_elem_of_In.
Qed.

(** X10.  A filter is ignored when it is the empty string and when the
    header has no 'Session Name' column: [getResponses] then answers as it
    does without a filter. *)
Theorem getResponses_filter_ignored (f : string) (w : world) :
  getResponses (Some ""%string) w = getResponses None w /\
  ((forall h rest, rowsOf w = h :: rest -> indexOf "Session Name" h = None) ->
   getResponses (Some f) w = getResponses None w).
Proof.
  unfold getResponses, rowsOf, attendanceData.
  destruct (falsyOpt (SHEET_ID w)); [done|].
  destruct (openById (SHEET_ID w) w) as [e|ss]; [done|].
  destruct (getSheetByName "Attendance" ss) as [sh|]; [|done]. simpl.
  destruct (values sh) as [|h [|r1 rest]]; [done|done|]. split.
  - by destruct (indexOf "Session Name" h).
  - intros Hcol. by rewrite (Hcol h (r1 :: rest) eq_refl).
Qed.

Lemma length_filter_le {A} (f : A -> bool) (l : list A) :
  (length (List.filter f l) <= length l)%nat.
Proof. induction l as [|x l IH]; simpl; [lia|]. destruct (f x); simpl; lia. Qed.

(** X11.  The three answers of [getResponses]: 'Sheet not set up' when
    SHEET_ID is unset or empty, the caught exception when the Attendance
    sheet cannot be read, and otherwise the first row as headers with one
    object per returned row, the count being their number and never more
    than the number of rows under the header. *)
Theorem getResponses_answers (sessionFilter : option string) (w : world) :
  (falsyOpt (SHEET_ID w) = true -> getResponses sessionFilter w = RError "Sheet not set up") /\
  (falsyOpt (SHEET_ID w) = false -> attendanceData w = None ->
   exists e, getResponses sessionFilter w = RCaught e) /\
  (forall data, falsyOpt (SHEET_ID w) = false -> attendanceData w = Some data ->
   exists responses,
     getResponses sessionFilter w
     = RResponses (default [] (head data)) responses (length responses) /\
     (length responses <= length (tail data))%nat).
Proof.
  unfold getResponses, attendanceData. split; [by intros ->|]. split.
  - intros -> Hnone. destruct (openById (SHEET_ID w) w) as [e|ss]; [eauto|].
    destruct (getSheetByName "Attendance" ss); [done|eauto].
  - intros data -> Hd. destruct (openById (SHEET_ID w) w) as [e|ss]; [done|].
    destruct (getSheetByName "Attendance" ss) as [sh|]; [|done].
    simpl in Hd. injection Hd as ->.
    destruct data as [|h [|r1 rest]]; [by exists []|by exists []|].
    eexists. split; [reflexivity|]. rewrite length_fmap. apply length_filter_le.
Qed.




End Reading.

(** ** What the ledger holds *)

Section Rows.

Lemma trimStart_cases s :
  trimStart s = ""%string \/
  exists c r, trimStart s = String c r /\ isWhiteSpace c = false.
Proof.
  induction s as [|c r IH]; simpl; [by left|].
  destruct (isWhiteSpace c) eqn:E; [exact IH|]. right. eauto.
Qed.

Lemma trimEnd_idem s : trimEnd (trimEnd s) = trimEnd s.
Proof.
  induction s as [|c r IH]; [done|]. simpl.
  destruct (trimEnd r) as [|d t] eqn:E.
  - destruct (isWhiteSpace c) eqn:Ec; [done|]. simpl. by rewrite Ec.
  - change (trimEnd (String c (String d t))) with
      (match trimEnd (String d t) with
       | EmptyString => if isWhiteSpace c then EmptyString else String c EmptyString
       | r' => String c r'
       end).
    by rewrite IH.
Qed.

Lemma trimEnd_headed c r :
  isWhiteSpace c = false -> exists r', trimEnd (String c r) = String c r'.
Proof. intros E. simpl. rewrite E. destruct (trimEnd r); eauto. Qed.

(** Trimming a trimmed string changes nothing. *)
Lemma trim_idem s : trim (trim s) = trim s.
Proof.
  unfold trim. destruct (trimStart_cases s) as [->|(c & r & -> & Ec)]; [done|].
  destruct (trimEnd_headed c r Ec) as [r' E]. rewrite E at 1.
  simpl trimStart. rewrite Ec. rewrite <- E. apply trimEnd_idem.
Qed.

Lemma emailOf_trimmed parameter : trim (emailOf parameter) = emailOf parameter.
Proof. unfold emailOf. by rewrite <- toLowerCase_trim, trim_idem. Qed.

Lemma serve_sessionTrimmed now q w :
  sessionTrimmed w -> sessionTrimmed (serve now q w).1.
Proof.
  intros Hw. destruct q as [parameter|[parameter|data]]; simpl; [done| |].
  - destruct (handleStudentSubmission_ends parameter now w); simpl; try done.
    unfold sessionTrimmed. by rewrite (proj2 (proj2 (appendRow_props _ _ _ _))).
  - destruct (data !! "action"%string) as [action|]; [|done].
    destruct (action =? "startSession")%string.
    + destruct (startSession_cases (data !! "sessionName"%string) now w)
        as [[msg ->]|(n & url & _ & Hn & _ & ->)]; [done|].
      intros m t a Hs. simpl in Hs. injection Hs as <- <- <-.
      split; [done|apply trim_idem].
    + destruct (action =? "stopSession")%string; [|done]. simpl.
      intros m t a Hs. unfold getSessionState in Hs.
      destruct (currentSession w) as [[m' t' a'|]|] eqn:Hc; simpl in Hs; [|done|done].
      injection Hs as <- <- <-. by apply (Hw m' t' a').
Qed.

(** X13.  Starting from records of the handler's form (a fresh setup has
    none) and a stored session with a trimmed, non-empty name (or none),
    after any requests every record has six cells, a non-empty email in
    lower case without surrounding whitespace, and a non-empty trimmed
    session name. *)
Theorem records_well_formed (qs : list (Z * request)) (w : world) :
  sessionTrimmed w ->
  Forall recordOk (records w) ->
  Forall recordOk (records (run qs w).1) /\ sessionTrimmed (run qs w).1.
Proof.
  revert w. induction qs as [|[now q] qs IH]; intros w Hs Hr; [done|].
  rewrite run_cons. cbn [fst]. apply IH; [by apply serve_sessionTrimmed|].
  unfold records in *.
  destruct (serve_rows now q w) as [[-> _]|(p & sn & _ & _ & He & Hacc & _ & ->)]; [done|].
  destruct (rowsOf w) as [|h rows]; [constructor|]. simpl in *.
  apply Forall_app. split; [done|]. constructor; [|constructor].
  unfold accepting, getSessionState in Hacc.
  destruct (currentSession w) as [[n t [|]|]|] eqn:Hc; try done. injection Hacc as ->.
  destruct (Hs sn t true Hc) as [Hne Htrim].
  unfold recordOk. change (cell 0 (emailOf p :: _)) with (emailOf p).
  change (cell 2 (emailOf p :: _)) with sn.
  repeat split; try done; [apply emailOf_lower|apply emailOf_trimmed].
Qed.

(** X14.  Rows are only ever added, one per accepted submission: after any
    requests the Attendance sheet has as many rows more as there were
    'Attendance recorded' answers. *)
Theorem accepted_submissions_are_the_new_rows (qs : list (Z * request)) (w : world) :
  length (rowsOf (run qs w).1)
  = (length (rowsOf w) + length (List.filter isSubmitOk (run qs w).2))%nat.
Proof.
  revert w. induction qs as [|[now q] qs IH]; intros w; [simpl; lia|].
  rewrite run_cons. cbn [fst snd List.filter]. rewrite IH.
  destruct (serve_rows now q w) as [[-> ->]|(p & sn & _ & -> & _ & _ & _ & ->)].
  - lia.
  - rewrite length_app. simpl. lia.
Qed.

(** X15.  A submission that is not answered 'Attendance recorded' changes
    nothing at all, whatever the reason for refusing it. *)
Theorem refused_submission_changes_nothing
    (parameter : gmap string string) (now : Z) (w : world) :
  isSubmitOk (serve now (submit parameter) w).2 = false ->
  (serve now (submit parameter) w).1 = w.
Proof.
  simpl. by destruct (handleStudentSubmission_ends parameter now w).
Qed.

(** X16.  The name a student types is required but not kept: two
    submissions with the same email field and any two names that are not
    blank get the same answer and leave the same world. *)
Theorem submitted_name_is_not_stored
    (parameter parameter' : gmap string string) (now : Z) (w : world) :
  parameter' !! "email"%string = parameter !! "email"%string ->
  nameOf parameter <> ""%string ->
  nameOf parameter' <> ""%string ->
  handleStudentSubmission parameter' now w = handleStudentSubmission parameter now w.
Proof.
  intros He Hn Hn'. unfold handleStudentSubmission.
  fold (nameOf parameter) (nameOf parameter'). rewrite He.
  apply falsy_false in Hn, Hn'. by rewrite Hn, Hn'.
Qed.

End Rows.

(** ** The teacher app *)

Section TeacherApp.

Lemma ticks_inactive times sc : isActive sc = false -> ticks times sc = (sc, O).
Proof. intros H. destruct times; simpl; [done|]. by rewrite H. Qed.

Lemma ticks_cons now times sc :
  isActive sc = true ->
  ticks (now :: times) sc =
    if endTime sc <=? now
    then (mkScreen (endTime sc) 0 false, 1%nat)
    else ticks times (mkScreen (endTime sc) (endTime sc - now) true).
Proof.
  intros Ha. cbn [ticks]. rewrite Ha. unfold tick, handleTerminate.
  destruct (endTime sc <=? now) eqn:E.
  - assert ((endTime sc - now <=? 0) = true) as -> by (apply Z.leb_le; apply Z.leb_le in E; lia).
    cbn [isActive negb andb]. rewrite andb_false_r.
    cbn [endTime timeLeft]. by rewrite ticks_inactive.
  - assert ((endTime sc - now <=? 0) = false) as -> by (apply Z.leb_gt; apply Z.leb_gt in E; lia).
    rewrite Ha. by destruct (ticks times _).
Qed.

(** X17.  The countdown sends [stopSession] at most once.  On a screen
    that is live it sends it exactly when some tick comes at or after the
    end time; the screen is then closed and shows 00:00 in red, and a press
    on Terminate sends nothing more.  While every tick is before the end
    time the screen stays live, nothing is sent and the time left stays
    positive. *)
Theorem countdown_sends_one_stop (times : list Z) (sc : screen) :
  isActive sc = true ->
  ((ticks times sc).2 <= 1)%nat /\
  (Exists (fun now => endTime sc <= now) times ->
   ticks times sc = (mkScreen (endTime sc) 0 false, 1%nat) /\
   formatTime (timeLeft (ticks times sc).1) = "00:00"%string /\
   getTimerColor (ticks times sc).1 = "#ef4444"%string /\
   handleTerminate false (ticks times sc).1 = ((ticks times sc).1, false)) /\
  (Forall (fun now => now < endTime sc) times ->
   (ticks times sc).2 = O /\ isActive (ticks times sc).1 = true /\
   (0 < timeLeft sc -> 0 < timeLeft (ticks times sc).1)).
Proof.
  revert sc. induction times as [|now times IH]; intros sc Ha.
  - split; [simpl; lia|]. split; [intros H; by apply Exists_nil in H|].
    intros _. simpl. by rewrite Ha.
  - rewrite (ticks_cons now times sc Ha).
    destruct (endTime sc <=? now) eqn:E.
    + apply Z.leb_le in E. split; [simpl; lia|]. split; [done|].
      intros H. apply Forall_cons in H as [H _]. lia.
    + apply Z.leb_gt in E.
      destruct (IH (mkScreen (endTime sc) (endTime sc - now) true) eq_refl)
        as (IH1 & IH2 & IH3). cbn [endTime timeLeft] in *.
      split; [exact IH1|]. split.
      * intros H. apply Exists_cons in H as [H|H]; [lia|]. by apply IH2.
      * intros H. apply Forall_cons in H as [_ H].
        destruct (IH3 H) as (H1 & H2 & H3). split; [done|]. split; [done|].
        intros _. apply H3. lia.
Qed.

Lemma stripTrailingSlashes_idem url :
  stripTrailingSlashes (stripTrailingSlashes url) = stripTrailingSlashes url.
Proof.
  induction url as [|c r IH]; [done|]. simpl.
  destruct (stripTrailingSlashes r) as [|d t] eqn:E.
  - destruct (Ascii.eqb c "/") eqn:Ec; [done|]. simpl. by rewrite Ec.
  - change (stripTrailingSlashes (String c (String d t))) with
      (match stripTrailingSlashes (String d t) with
       | EmptyString => if Ascii.eqb c "/" then EmptyString else String c EmptyString
       | r' => String c r'
       end).
    by rewrite IH.
Qed.

Lemma stripTrailingSlashes_split url :
  exists k, url = (stripTrailingSlashes url +:+ padding k "/")%string.
Proof.
  induction url as [|c r [k IH]]; [by exists O|]. simpl.
  destruct (stripTrailingSlashes r) as [|d t] eqn:E.
  - destruct (Ascii.eqb_spec c "/") as [->|Hc].
    + exists (S k). simpl. by rewrite IH at 1.
    + exists k. rewrite append_cons. by rewrite IH at 1.
  - exists k. rewrite append_cons. by rewrite IH at 1.
Qed.

Lemma stripTrailingSlashes_no_slash url t :
  stripTrailingSlashes url <> (t +:+ "/")%string.
Proof.
  revert t. induction url as [|c r IH]; intros t; simpl.
  - by destruct t.
  - destruct (stripTrailingSlashes r) as [|d u] eqn:E.
    + destruct (Ascii.eqb_spec c "/") as [->|Hc]; [by destruct t|].
      intros H. destruct t as [|x t].
      * injection H as H. by apply Hc.
      * rewrite append_cons in H. injection H as _ H. by destruct t.
    + destruct t as [|x t]; [done|]. rewrite append_cons.
      intros [= _ H]. by apply (IH t).
Qed.

(** X18.  [setServerUrl] stores the address without the slashes at its
    end: the address given is the stored one followed by slashes only, the
    stored one does not end in a slash, storing it again changes nothing,
    and the address [pingServer] fetches is the stored one followed by
    '/api/status'. *)
Theorem setServerUrl_strips (url old : string) :
  let stored := getServerUrl (setServerUrl url old) in
  (exists k, url = (stored +:+ padding k "/")%string) /\
  (forall t, stored <> (t +:+ "/")%string) /\
  setServerUrl stored stored = stored /\
  pingAddress url = (stored +:+ "/api/status")%string.
Proof.
  unfold getServerUrl, setServerUrl, pingAddress. simpl.
  split; [apply stripTrailingSlashes_split|].
  split; [apply stripTrailingSlashes_no_slash|].
  split; [apply stripTrailingSlashes_idem|done].
Qed.

(** X19.  The home screen alerts exactly when the name typed is blank.
    Otherwise the name it passes on is the name typed without the
    whitespace around it: it is not empty, trimming it again changes
    nothing, and typed as it is it would be passed on unchanged. *)
Theorem handleStart_passes_trimmed_name (sessionName : string) :
  (handleStart sessionName = None <-> trim sessionName = ""%string) /\
  (forall name,
      handleStart sessionName = Some name ->
      name = trim sessionName /\ name <> ""%string /\ trim name = name /\
      handleStart name = Some name).
Proof.
  unfold handleStart. split.
  - destruct (falsy (trim sessionName)) eqn:E.
    + apply falsy_true in E. by split.
    + apply falsy_false in E. split; [intros H; discriminate H|done].
  - intros name H. destruct (falsy (trim sessionName)) eqn:E; [done|].
    injection H as <-. rewrite trim_idem, E. apply falsy_false in E. by repeat split.
Qed.

Lemma length_append (a b : string) :
  String.length (a +:+ b) = (String.length a + String.length b)%nat.
Proof. induction a as [|x a IH]; [done|]. rewrite append_cons. simpl. by rewrite IH. Qed.

Lemma replaceNonAlphaNum_chars s c :
  includesChar c (replaceNonAlphaNum s) = true -> isAlphaNum c = true \/ c = "_"%char.
Proof.
  induction s as [|x s IH]; simpl; [done|].
  intros H. apply orb_true_iff in H as [H|H]; [|by apply IH].
  apply Ascii.eqb_eq in H. subst c. destruct (isAlphaNum x) eqn:E; [by left|by right].
Qed.

Lemma fixed_part_chars c :
  (includesChar c "Attendance_" = true -> isAlphaNum c = true \/ c = "_"%char) /\
  (includesChar c ".xlsx" = true -> isAlphaNum c = true \/ c = "."%char).
Proof.
  destruct c as [[] [] [] [] [] [] [] []]; vm_compute;
    (split; intros H; first [discriminate H|by left|by right]).
Qed.

(** X20.  The export file name is 'Attendance_', the session name with
    every character that is not a letter or a digit turned into '_', and
    '.xlsx': it is 16 characters longer than the session name and holds only
    letters, digits, '_' and '.'. *)
Theorem exportFileName_safe (sessionName : string) (c : ascii) :
  String.length (exportFileName sessionName) = (16 + String.length sessionName)%nat /\
  (includesChar c (exportFileName sessionName) = true ->
   isAlphaNum c = true \/ c = "_"%char \/ c = "."%char).
Proof.
  unfold exportFileName. split.
  - rewrite !length_append. simpl.
    assert (String.length (replaceNonAlphaNum sessionName) = String.length sessionName) as ->.
    { induction sessionName as [|x s IH]; simpl; congruence. }
    lia.
  - rewrite !includesChar_app. intros H.
    apply orb_true_iff in H as [H|H]; [|apply orb_true_iff in H as [H|H]].
    + destruct (fixed_part_chars c) as [Hp _]. destruct (Hp H); [by left|by right; left].
    + destruct (replaceNonAlphaNum_chars _ _ H); [by left|by right; left].
    + destruct (fixed_part_chars c) as [_ Hs]. destruct (Hs H); [by left|by right; right].
Qed.


End TeacherApp.

(** ** The time shown and the student app *)

Section Shown.

Lemma pad2_length n :
  0 <= n < 100 -> String.length (padStart 2 "0" (numberToString n)) = 2%nat.
Proof.
  intros [H1 H2]. rewrite <- (Z2Nat.id n H1).
  assert (Z.to_nat n < 100)%nat as Hk by lia. revert Hk.
  generalize (Z.to_nat n). intros k Hk.
  do 100 (destruct k as [|k]; [reflexivity|]). lia.
Qed.

Lemma pad2_inj n m :
  0 <= n < 100 -> 0 <= m < 100 ->
  padStart 2 "0" (numberToString n) = padStart 2 "0" (numberToString m) -> n = m.
Proof.
  intros Hn Hm E.
  assert (forallb (fun i => forallb (fun j =>
            implb (padStart 2 "0" (numberToString (Z.of_nat i))
                   =? padStart 2 "0" (numberToString (Z.of_nat j)))%string
                  (Nat.eqb i j)) (seq 0 100)) (seq 0 100) = true) as Htab
    by (vm_compute; reflexivity).
  rewrite forallb_forall in Htab.
  specialize (Htab (Z.to_nat n)). rewrite forallb_forall in Htab.
  specialize (Htab ltac:(apply in_seq; lia) (Z.to_nat m) ltac:(apply in_seq; lia)).
  rewrite !Z2Nat.id in Htab by lia. rewrite E, String.eqb_refl in Htab. simpl in Htab.
  apply Nat.eqb_eq in Htab. lia.
Qed.

Lemma append_inj_length (a b c d : string) :
  String.length a = String.length c ->
  (a +:+ b = c +:+ d)%string -> a = c /\ b = d.
Proof.
  revert c. induction a as [|x a IH]; intros [|y c] Hl H; try done.
  rewrite !append_cons in H. injection H as -> H. injection Hl as Hl.
  destruct (IH c Hl H) as [-> ->]. done.
Qed.

(** X22.  The time shown: '00:00' for anything under a second (also for a
    negative time left); five characters for any time under a hundred
    minutes; and, under a hundred minutes, the same text only for times
    with the same number of whole seconds. *)
Theorem formatTime_shows_seconds (a b : Z) :
  (a < 1000 -> formatTime a = "00:00"%string) /\
  (0 <= a < 6000000 -> String.length (formatTime a) = 5%nat) /\
  (0 <= a < 6000000 -> 0 <= b < 6000000 ->
   formatTime a = formatTime b -> a / 1000 = b / 1000).
Proof.
  unfold formatTime. split; [|split].
  - intros H. assert (a / 1000 <= 0) by (apply Z.lt_succ_r, Z.div_lt_upper_bound; lia).
    by rewrite Z.max_l by lia.
  - intros H. assert (0 <= a / 1000 < 6000)
      by (split; [apply Z.div_pos; lia|apply Z.div_lt_upper_bound; lia]).
    rewrite Z.max_r by lia.
    assert (0 <= (a / 1000) / 60 < 100)
      by (split; [apply Z.div_pos; lia|apply Z.div_lt_upper_bound; lia]).
    assert (0 <= (a / 1000) mod 60 < 60) by (apply Z.mod_pos_bound; lia).
    by rewrite !length_append, !pad2_length by lia.
  - intros Ha Hb E.
    assert (0 <= a / 1000 < 6000) as Ha'
      by (split; [apply Z.div_pos; lia|apply Z.div_lt_upper_bound; lia]).
    assert (0 <= b / 1000 < 6000) as Hb'
      by (split; [apply Z.div_pos; lia|apply Z.div_lt_upper_bound; lia]).
    rewrite !Z.max_r in E by lia.
    set (ta := a / 1000) in *. set (tb := b / 1000) in *.
    assert (0 <= ta / 60 < 100) as Hma
      by (split; [apply Z.div_pos; lia|apply Z.div_lt_upper_bound; lia]).
    assert (0 <= tb / 60 < 100) as Hmb
      by (split; [apply Z.div_pos; lia|apply Z.div_lt_upper_bound; lia]).
    assert (0 <= ta mod 60 < 60) as Hsa by (apply Z.mod_pos_bound; lia).
    assert (0 <= tb mod 60 < 60) as Hsb by (apply Z.mod_pos_bound; lia).
    apply append_inj_length in E as [Em E]; [|by rewrite !pad2_length].
    rewrite !append_cons in E. injection E as Es.
    apply pad2_inj in Em; [|done|done]. apply pad2_inj in Es; [|lia|lia].
    rewrite (Z.div_mod ta 60), (Z.div_mod tb 60) by lia. lia.
Qed.

Lemma lowerChar_at c : Ascii.eqb (lowerChar c) "@" = Ascii.eqb c "@".
Proof. destruct c as [[] [] [] [] [] [] [] []]; reflexivity. Qed.

Lemma includesChar_toLowerCase_at s :
  includesChar "@" (toLowerCase s) = includesChar "@" s.
Proof. induction s as [|c r IH]; simpl; [done|]. by rewrite lowerChar_at, IH. Qed.

Lemma includesChar_trimStart x s :
  isWhiteSpace x = false -> includesChar x (trimStart s) = includesChar x s.
Proof.
  intros Hx. induction s as [|c r IH]; simpl; [done|].
  destruct (isWhiteSpace c) eqn:Ec; [|done]. rewrite IH.
  destruct (Ascii.eqb_spec c x) as [->|_]; [congruence|done].
Qed.

Lemma includesChar_trimEnd x s :
  isWhiteSpace x = false -> includesChar x (trimEnd s) = includesChar x s.
Proof.
  intros Hx. induction s as [|c r IH]; [done|]. simpl.
  destruct (trimEnd r) as [|d t] eqn:E.
  - rewrite <- IH. simpl. destruct (isWhiteSpace c) eqn:Ec; [|done].
    destruct (Ascii.eqb_spec c x) as [->|_]; [congruence|done].
  - cbn [includesChar]. by rewrite <- IH.
Qed.

Lemma toLowerCase_nonempty s : s <> ""%string -> toLowerCase s <> ""%string.
Proof. by destruct s. Qed.

(** X23.  The login screen refuses an email that is blank or has no '@';
    the email it sends otherwise is not empty, has an '@', is in lower case
    and trimmed, and is the very identity the submission handler derives,
    from the raw text and from the text sent alike. *)
Theorem handleLogin_normal_form (email : string) (parameter : gmap string string) :
  (handleLogin email = None <->
   trim email = ""%string \/ includesChar "@" email = false) /\
  (forall sent, handleLogin email = Some sent ->
     sent <> ""%string /\ includesChar "@" sent = true /\
     toLowerCase sent = sent /\ trim sent = sent /\
     emailOf (<["email" := email]> parameter) = sent /\
     emailOf (<["email" := sent]> parameter) = sent).
Proof.
  unfold handleLogin. split.
  - destruct (falsy (trim email)) eqn:E1; simpl.
    + apply falsy_true in E1. split; [by left|done].
    + apply falsy_false in E1. destruct (includesChar "@" email) eqn:E2; simpl.
      * split; [done|]. by intros [?|?].
      * split; [by right|done].
  - intros sent H. destruct (falsy (trim email)) eqn:E1; [done|].
    destruct (includesChar "@" email) eqn:E2; [|done]. simpl in H. injection H as <-.
    apply falsy_false in E1. rewrite <- toLowerCase_trim.
    assert (trim (toLowerCase (trim email)) = toLowerCase (trim email)) as Ht
      by (by rewrite <- toLowerCase_trim, trim_idem).
    split; [by apply toLowerCase_nonempty|]. split.
    { rewrite includesChar_toLowerCase_at. unfold trim.
      by rewrite includesChar_trimEnd, includesChar_trimStart. }
    split; [apply toLowerCase_idem|]. split; [exact Ht|].
    unfold emailOf. rewrite !lookup_insert_eq. simpl. split; [done|].
    by rewrite Ht, toLowerCase_idem.
Qed.

Lemma codeRun_run s : codeRun (codeRun s) = codeRun s.
Proof.
  induction s as [|c r IH]; simpl; [done|].
  destruct (isCodeChar c) eqn:E; [|done]. simpl. by rewrite E, IH.
Qed.

Lemma codeRun_split s : exists post, s = (codeRun s +:+ post)%string.
Proof.
  induction s as [|c r [post IH]]; simpl; [by exists ""%string|].
  destruct (isCodeChar c); [|by eexists].
  exists post. rewrite append_cons. by rewrite IH at 1.
Qed.

Lemma codeRun_app code rest :
  codeRun code = code -> codeRun rest = ""%string -> codeRun (code +:+ rest) = code.
Proof.
  intros Hc Hr. induction code as [|c code IH]; [done|].
  rewrite append_cons. simpl in *. destruct (isCodeChar c); [|done].
  injection Hc as Hc. by rewrite IH.
Qed.

Lemma matchHere_Some s code :
  matchHere s = Some code ->
  code <> ""%string /\ codeRun code = code /\ exists post, s = ("/s/" +:+ code +:+ post)%string.
Proof.
  unfold matchHere. intros H.
  destruct s as [|a s]; [done|].
  destruct (Ascii.eqb_spec a "/") as [->|Ha];
    [|by destruct a as [[] [] [] [] [] [] [] []]].
  destruct s as [|b s]; [done|].
  destruct (Ascii.eqb_spec b "s") as [->|Hb];
    [|by destruct b as [[] [] [] [] [] [] [] []]].
  destruct s as [|c r]; [done|].
  destruct (Ascii.eqb_spec c "/") as [->|Hc];
    [|by destruct c as [[] [] [] [] [] [] [] []]].
  destruct (falsy (codeRun r)) eqn:E; [done|]. injection H as <-.
  split; [by apply falsy_false|]. split; [apply codeRun_run|].
  destruct (codeRun_split r) as [post Hp]. exists post. by rewrite Hp at 1.
Qed.

(** X24.  What the scanner takes from a QR text is never empty, is made of
    letters, digits, '_' and '-' only, and stands in the text right after a
    '/s/'. *)
Theorem sessionCodeOf_sound (data code : string) :
  sessionCodeOf data = Some code ->
  code <> ""%string /\ codeRun code = code /\
  exists pre post, data = (pre +:+ "/s/" +:+ code +:+ post)%string.
Proof.
  induction data as [|c r IH]; cbn [sessionCodeOf].
  - destruct (matchHere "") eqn:E; [|done]. intros [= <-].
    apply matchHere_Some in E as (H1 & H2 & post & H3). done.
  - destruct (matchHere (String c r)) as [found|] eqn:E.
    + intros [= <-]. apply matchHere_Some in E as (H1 & H2 & post & H3).
      split; [done|]. split; [done|]. by exists ""%string, post.
    + intros H. destruct (IH H) as (H1 & H2 & pre & post & H3).
      split; [done|]. split; [done|]. exists (String c pre), post.
      by rewrite append_cons, H3.
Qed.

Lemma sessionCodeOf_here s code : matchHere s = Some code -> sessionCodeOf s = Some code.
Proof. intros H. destruct s; cbn [sessionCodeOf]; by rewrite H. Qed.

Lemma sessionCodeOf_skip c r :
  matchHere (String c r) = None -> sessionCodeOf (String c r) = sessionCodeOf r.
Proof. intros H. cbn [sessionCodeOf]. by rewrite H. Qed.

(** X25.  A link whose part before '/s/' has no '/s' in it, followed by a
    code of letters, digits, '_' and '-' and then by nothing or by some
    other character, gives back that code. *)
Theorem sessionCodeOf_of_link (base code rest : string) :
  (forall pre post, base <> (pre +:+ "/s" +:+ post)%string) ->
  code <> ""%string ->
  codeRun code = code ->
  codeRun rest = ""%string ->
  sessionCodeOf (base +:+ "/s/" +:+ code +:+ rest) = Some code.
Proof.
  intros Hbase Hne Hcode Hrest.
  assert (matchHere ("/s/" +:+ code +:+ rest) = Some code) as Hend.
  { change ("/s/" +:+ code +:+ rest)%string
      with (String "/" (String "s" (String "/" (code +:+ rest)%string))).
    unfold matchHere. rewrite (codeRun_app _ _ Hcode Hrest).
    apply falsy_false in Hne. by rewrite Hne. }
  induction base as [|c b IH].
  - by apply sessionCodeOf_here.
  - rewrite append_cons. rewrite sessionCodeOf_skip.
    2:{ unfold matchHere. destruct (Ascii.eqb_spec c "/") as [->|Hc];
        [|by destruct c as [[] [] [] [] [] [] [] []]].
      destruct b as [|d b'].
      - reflexivity.
      - rewrite append_cons. destruct (Ascii.eqb_spec d "s") as [->|Hd];
          [|by destruct d as [[] [] [] [] [] [] [] []]].
        exfalso. by apply (Hbase ""%string b'). }
    apply IH. intros pre post ->. by apply (Hbase (String c pre) post).
Qed.

End Shown.

End Properties.

(** * Closed instances: runs of the script on a fresh deployment *)

Example trim_session_name : trim "  Thermo P3 	" = "Thermo P3"%string.
Proof. reflexivity. Qed.

Example normalise_email : emailOf (formOf " Student1@College.EDU " "Ann") = "student1@college.edu"%string.
Proof. vm_compute. reflexivity. Qed.

Example roll_of_student1 : lookupRollNumber "student1@college.edu" freshWorld = "21ME001"%string.
Proof. vm_compute. reflexivity. Qed.

Example roll_of_stranger : lookupRollNumber "a@x" freshWorld = "NOT FOUND"%string.
Proof. vm_compute. reflexivity. Qed.

Example roll_without_map : lookupRollNumber "a@x" emptyWorld = "NO MAP"%string.
Proof. reflexivity. Qed.

(** The walk-through of the spec: a session "Test", one submission, the
    same identity again. *)
Example run_test_session :
  (demoRun [(0, start "Test");
            (1000, submit (formOf "Student1@College.edu " "Ann"));
            (2000, submit (formOf "student1@college.edu" "Ann"))] freshWorld).2
  = [RStartOk "Test" sheetUrl1; RSubmitOk;
     RError "You have already submitted for this session"].
Proof. vm_compute. reflexivity. Qed.

Example run_test_session_rows :
  records (demoRun [(0, start "Test");
                    (1000, submit (formOf "Student1@College.edu " "Ann"));
                    (2000, submit (formOf "student1@college.edu" "Ann"))] freshWorld).1
  = [demoRow "student1@college.edu" "21ME001" "Test" 1000].
Proof. vm_compute. reflexivity. Qed.

(** *** C1 *)

(** A session named 101: the identity that is recorded at 1000 submits
    again at 2000 and is recorded again. *)
Lemma duplicate_scan_misses_retyped_name_witness :
  let w := (demoRun [(0, start "101"); (1000, submit (formOf "a@x" "Ann"))] freshWorld).1 in
  demoRetyped "101" = true /\
  accepting w = Some "101"%string /\
  recordsFor "101" "a@x" w = [demoRow "a@x" "NOT FOUND" "101" 1000] /\
  (handleStudentSubmission demoFormat demoISO demoRetyped (formOf "a@x" "Ann") 2000 w).2
  = inr RSubmitOk /\
  attendanceData
    (handleStudentSubmission demoFormat demoISO demoRetyped (formOf "a@x" "Ann") 2000 w).1
  = Some [attendanceHeader; demoRow "a@x" "NOT FOUND" "101" 1000;
          demoRow "a@x" "NOT FOUND" "101" 2000].
Proof.
  split; [reflexivity|]. split; [vm_compute; reflexivity|].
  split; [vm_compute; reflexivity|].
  apply (duplicate_scan_misses_retyped_name demoFormat demoISO demoRetyped
           (formOf "a@x" "Ann") 2000
           (demoRun [(0, start "101"); (1000, submit (formOf "a@x" "Ann"))] freshWorld).1
           "101" [attendanceHeader; demoRow "a@x" "NOT FOUND" "101" 1000]).
  - reflexivity.
  - vm_compute. congruence.
  - vm_compute. congruence.
  - vm_compute. reflexivity.
  - vm_compute. reflexivity.
Defined.

Example run_retyped_session :
  (demoRun [(0, start "101"); (1000, submit (formOf "a@x" "Ann"));
            (2000, submit (formOf "a@x" "Ann"))] freshWorld).2
  = [RStartOk "101" sheetUrl1; RSubmitOk; RSubmitOk].
Proof. vm_compute. reflexivity. Qed.

(** *** C2 *)

(** C2 fails as stated: with no [stopSession] in between, a submission that
    arrives after [startedAt + SESSION_DURATION_MS] is accepted and
    recorded. *)
Lemma submission_after_duration_accepted :
  0 + SESSION_DURATION_MS < SESSION_DURATION_MS + 1 /\
  (demoRun [(0, start "Test");
            (SESSION_DURATION_MS + 1, submit (formOf "b@x" "Bea"))] freshWorld).2
  = [RStartOk "Test" sheetUrl1; RSubmitOk] /\
  records (demoRun [(0, start "Test");
                    (SESSION_DURATION_MS + 1, submit (formOf "b@x" "Bea"))] freshWorld).1
  = [demoRow "b@x" "NOT FOUND" "Test" 600001].
Proof. split; [reflexivity|]. split; vm_compute; reflexivity. Qed.

Lemma closed_iff_not_active_witness :
  let w := (demoRun [(0, start "Test")] freshWorld).1 in
  let qs := [(2000, start "  ");
             (3000, Post (JsonData {["action" := "restart"]}%string));
             (4000, submit (formOf "a@x" "Ann"));
             (5000, Get ∅)] in
  emailOf (formOf "b@x" "Bea") <> ""%string /\
  nameOf (formOf "b@x" "Bea") <> ""%string /\
  Forall (fun tq => isStop tq.2 = false) qs /\
  (demoRun qs w).2
    = [RError "Session name is required"; RError "Unknown action: restart"; RSubmitOk;
       RForm true (Some "Test"%string)] /\
  accepting (demoRun qs w).1 = accepting w /\
  accepting w = Some "Test"%string /\
  (demoRun qs (serve demoFormat demoISO demoRetyped 1000 stop w).1).2
    = [RError "Session name is required"; RError "Unknown action: restart";
       RError "Session is closed"; RForm false None] /\
  (handleStudentSubmission demoFormat demoISO demoRetyped (formOf "b@x" "Bea") 700000
     (demoRun qs (serve demoFormat demoISO demoRetyped 1000 stop w).1).1).2
  = inr (RError "Session is closed").
Proof.
  assert (emailOf (formOf "b@x" "Bea") <> ""%string) as He by (vm_compute; congruence).
  assert (nameOf (formOf "b@x" "Bea") <> ""%string) as Hn by (vm_compute; congruence).
  assert (Forall (fun tq : Z * request => isStop tq.2 = false)
            [(2000, start "  ");
             (3000, Post (JsonData {["action" := "restart"]}%string));
             (4000, submit (formOf "a@x" "Ann"));
             (5000, Get ∅)]) as Hstop.
  { repeat constructor. }
  split; [exact He|]. split; [exact Hn|]. split; [exact Hstop|].
  split; [vm_compute; reflexivity|].
  destruct (closed_iff_not_active demoFormat demoISO demoRetyped (formOf "b@x" "Bea")
              700000 1000 (demoRun [(0, start "Test")] freshWorld).1
              [(2000, start "  ");
               (3000, Post (JsonData {["action" := "restart"]}%string));
               (4000, submit (formOf "a@x" "Ann"));
               (5000, Get ∅)] He Hn)
    as (_ & H2 & H3).
  split.
  { apply (H2 Hstop). vm_compute. repeat constructor. }
  split; [vm_compute; reflexivity|]. split; [vm_compute; reflexivity|].
  apply H3. vm_compute. repeat constructor.
Defined.

(** *** C3 *)

(** C3 fails as stated: an identity that submitted with fingerprint D1 is
    told 'You have already submitted for this session', not a device
    mismatch, when it comes back to the same session with fingerprint D2,
    and is accepted with D2 in the next session. *)
Lemma other_device_accepted :
  (demoRun [(0, start "S1");
            (1000, submit (formWithDevice "a@x" "Ann" "D1"));
            (2000, submit (formWithDevice "a@x" "Ann" "D2"));
            (3000, stop);
            (4000, start "S2");
            (5000, submit (formWithDevice "a@x" "Ann" "D2"))] freshWorld).2
  = [RStartOk "S1" sheetUrl1; RSubmitOk;
     RError "You have already submitted for this session";
     RStopOk (Some "S1"%string); RStartOk "S2" sheetUrl1; RSubmitOk].
Proof. vm_compute. reflexivity. Qed.

Lemma submission_ignores_other_fields_witness :
  let w := (demoRun [(0, start "S1")] freshWorld).1 in
  formWithDevice "a@x" "Ann" "D2" !! "email"%string
    = formWithDevice "a@x" "Ann" "D1" !! "email"%string /\
  formWithDevice "a@x" "Ann" "D2" !! "name"%string
    = formWithDevice "a@x" "Ann" "D1" !! "name"%string /\
  handleStudentSubmission demoFormat demoISO demoRetyped (formWithDevice "a@x" "Ann" "D2") 1000 w
  = handleStudentSubmission demoFormat demoISO demoRetyped (formWithDevice "a@x" "Ann" "D1") 1000 w.
Proof.
  split; [vm_compute; reflexivity|]. split; [vm_compute; reflexivity|].
  apply (submission_ignores_other_fields demoFormat demoISO demoRetyped
           (formWithDevice "a@x" "Ann" "D1") (formWithDevice "a@x" "Ann" "D2"));
    vm_compute; reflexivity.
Defined.

(** *** C4 *)

(** C4 fails as stated: S1 and S2 are started one after the other; the stop
    sent for S1 (it can name no session) deactivates S2, and S2 then refuses
    a submission. *)
Lemma stop_closes_the_other_session :
  (demoRun [(0, start "S1"); (1000, start "S2"); (2000, stop);
            (3000, submit (formOf "b@x" "Bea"))] freshWorld).2
  = [RStartOk "S1" sheetUrl1; RStartOk "S2" sheetUrl1;
     RStopOk (Some "S2"%string); RError "Session is closed"] /\
  getSessionState (demoRun [(0, start "S1"); (1000, start "S2")] freshWorld).1
  = Some (Session "S2" "1000" true) /\
  getSessionState (demoRun [(0, start "S1"); (1000, start "S2"); (2000, stop)] freshWorld).1
  = Some (Session "S2" "1000" false).
Proof. repeat split; vm_compute; reflexivity. Qed.

Lemma stopSession_stops_current_witness :
  let w := (demoRun [(0, start "S1"); (1000, start "S2")] freshWorld).1 in
  getSessionState w = Some (Session "S2" "1000" true) /\
  stopSession w = (setSessionState (Some (Session "S2" "1000" false)) w,
                   RStopOk (Some "S2"%string)) /\
  accepting (stopSession w).1 = None /\
  (handleStudentSubmission demoFormat demoISO demoRetyped (formOf "b@x" "Bea") 3000
     (stopSession w).1).2
  = inr (RError "Session is closed").
Proof.
  destruct (stopSession_stops_current demoFormat demoISO demoRetyped
              (demoRun [(0, start "S1"); (1000, start "S2")] freshWorld).1
              (formOf "b@x" "Bea") 3000) as (_ & H1 & _ & _ & H2 & _ & _ & H5).
  split; [vm_compute; reflexivity|].
  split; [apply (H1 "S2" "1000" true); vm_compute; reflexivity|].
  split; [exact H2|].
  apply H5; vm_compute; congruence.
Defined.

(** *** C5 *)

(** C5 fails as stated: two sessions started under the same name get the
    same answer, with nothing in it to tell them apart, and share their
    records: who attended the first is refused in the second. *)
Lemma same_name_no_fresh_code :
  (demoRun [(0, start "A"); (1000, submit (formOf "a@x" "Ann")); (2000, stop);
            (5000, start "A"); (6000, submit (formOf "a@x" "Ann"))] freshWorld).2
  = [RStartOk "A" sheetUrl1; RSubmitOk; RStopOk (Some "A"%string);
     RStartOk "A" sheetUrl1; RError "You have already submitted for this session"] /\
  getSessionState (demoRun [(0, start "A")] freshWorld).1
  = Some (Session "A" "0" true) /\
  getSessionState (demoRun [(0, start "A"); (1000, submit (formOf "a@x" "Ann"));
                            (2000, stop); (5000, start "A")] freshWorld).1
  = Some (Session "A" "5000" true).
Proof. repeat split; vm_compute; reflexivity. Qed.

Lemma startSession_reuses_name_witness :
  trim "A" <> ""%string /\
  falsyOpt (SHEET_ID freshWorld) = false /\
  trim " A " = trim "A" /\
  (startSession demoISO (Some " A ") 5000
     (demoRun [(1000, submit (formOf "a@x" "Ann")); (2000, stop)]
        (startSession demoISO (Some "A") 0 freshWorld).1).1).2
  = (startSession demoISO (Some "A") 0 freshWorld).2.
Proof.
  assert (trim "A" <> ""%string) as Hn by (vm_compute; congruence).
  split; [exact Hn|]. split; [reflexivity|]. split; [reflexivity|].
  apply (startSession_reuses_name demoFormat demoISO demoRetyped "A" " A " 0 5000 freshWorld
           [(1000, submit (formOf "a@x" "Ann")); (2000, stop)] Hn);
    reflexivity.
Defined.

(** *** C6 *)



(** *** C7 *)

Lemma stopSession_terminal_noop_witness :
  let w := (demoRun [(0, start "Test"); (600000, stop)] freshWorld).1 in
  getSessionState w = Some (Session "Test" "0" false) /\
  active (Session "Test" "0" false) = false /\
  stopSession w = (w, RStopOk (Some "Test"%string)).
Proof.
  split; [vm_compute; reflexivity|]. split; [reflexivity|].
  apply (stopSession_terminal_noop demoFormat demoISO demoRetyped
           (demoRun [(0, start "Test"); (600000, stop)] freshWorld).1
           (Session "Test" "0" false) 700000);
    [vm_compute; reflexivity|reflexivity].
Defined.

(** *** C8 *)

(** The roll map holds 'Ann@College.EDU ' and the form is given
    'ANN@college.edu': the row recorded carries that row's roll number. *)
Lemma lookup_case_insensitive_never_fatal_witness :
  let w := (demoRun [(0, start "Test")] rollWorld).1 in
  toLowerCase (default ""%string (formOf "ann@COLLEGE.edu" "Ann" !! "email"%string))
    = toLowerCase (default ""%string (formOf "ANN@college.edu" "Ann" !! "email"%string)) /\
  formOf "ann@COLLEGE.edu" "Ann" !! "name"%string
    = formOf "ANN@college.edu" "Ann" !! "name"%string /\
  handleStudentSubmission demoFormat demoISO demoRetyped (formOf "ann@COLLEGE.edu" "Ann") 1000 w
  = handleStudentSubmission demoFormat demoISO demoRetyped (formOf "ANN@college.edu" "Ann") 1000 w /\
  (handleStudentSubmission demoFormat demoISO demoRetyped
     (formOf "ANN@college.edu" "Ann") 1000 w).2 = inr RSubmitOk /\
  rowsOf (handleStudentSubmission demoFormat demoISO demoRetyped
            (formOf "ANN@college.edu" "Ann") 1000 w).1
  = [attendanceHeader; demoRow "ann@college.edu" "21ME007" "Test" 1000].
Proof.
  assert (toLowerCase (default ""%string (formOf "ann@COLLEGE.edu" "Ann" !! "email"%string))
          = toLowerCase (default ""%string (formOf "ANN@college.edu" "Ann" !! "email"%string)))
    as He by (vm_compute; reflexivity).
  assert (formOf "ann@COLLEGE.edu" "Ann" !! "name"%string
          = formOf "ANN@college.edu" "Ann" !! "name"%string)
    as Hn by (vm_compute; reflexivity).
  split; [exact He|]. split; [exact Hn|].
  destruct (lookup_case_insensitive_never_fatal demoFormat demoISO demoRetyped
              (formOf "ANN@college.edu" "Ann") (formOf "ann@COLLEGE.edu" "Ann") 1000
              (demoRun [(0, start "Test")] rollWorld).1 He Hn) as (H1 & _ & H3).
  split; [exact H1|].
  assert (emailOf (formOf "ANN@college.edu" "Ann") <> ""%string) as H5
    by (vm_compute; congruence).
  assert (nameOf (formOf "ANN@college.edu" "Ann") <> ""%string) as H6
    by (vm_compute; congruence).
  destruct (H3 "Test"%string [attendanceHeader] H5 H6 eq_refl eq_refl eq_refl)
    as (Hok & _ & _ & Hfound).
  split; [exact Hok|].
  apply (Hfound ["Email"; "RollNumber"]%string [] ["Ann@College.EDU "; "21ME007"]%string
           [["ann@college.edu"; "21ME999"]%string] "21ME007"%string);
    [reflexivity|reflexivity|constructor|reflexivity|reflexivity].
Defined.

Example roll_of_ann : lookupRollNumber "ann@college.edu" rollWorld = "21ME007"%string.
Proof. vm_compute. reflexivity. Qed.

(** *** C9 *)

(** C9 fails as stated: on a deployment where [initialSetup] has not run, a
    name that is not empty after trimming is refused and nothing is
    stored. *)
Lemma startSession_without_setup :
  trim "Test" <> ""%string /\
  startSession demoISO (Some "Test"%string) 0 emptyWorld
  = (emptyWorld, RError "Run initialSetup() first from the script editor").
Proof. split; [vm_compute; congruence|reflexivity]. Qed.

Lemma startSession_outcome_witness :
  trim "  Thermo P3 " <> ""%string /\
  falsyOpt (SHEET_ID freshWorld) = false /\
  exists url,
    startSession demoISO (Some "  Thermo P3 "%string) 0 freshWorld
    = (setSessionState (Some (Session "Thermo P3" (demoISO 0) true)) freshWorld,
       RStartOk "Thermo P3" url).
Proof.
  assert (trim "  Thermo P3 " <> ""%string) as Hn by (vm_compute; congruence).
  split; [exact Hn|]. split; [reflexivity|].
  destruct (startSession_outcome demoISO "  Thermo P3 " 0 freshWorld) as (_ & _ & H & _).
  exact (H Hn eq_refl).
Defined.

(** *** C10 *)

Lemma startSession_overwrites_current_witness :
  let w := (demoRun [(0, start "Old")] freshWorld).1 in
  let qs := [(2000, submit (formOf "a@x" "Ann")); (3000, stop);
             (4000, submit (formOf "b@x" "Bea"))] in
  accepting w = Some "Old"%string /\
  trim "New" <> ""%string /\
  falsyOpt (SHEET_ID w) = false /\
  Forall (fun tq => isStart tq.2 = false) qs /\
  accepting (startSession demoISO (Some "New"%string) 1000 w).1 = Some (trim "New").
Proof.
  assert (trim "New" <> ""%string) as Hn by (vm_compute; congruence).
  assert (Forall (fun tq : Z * request => isStart tq.2 = false)
            [(2000, submit (formOf "a@x" "Ann")); (3000, stop);
             (4000, submit (formOf "b@x" "Bea"))]) as Hqs.
  { repeat constructor. }
  split; [vm_compute; reflexivity|]. split; [exact Hn|]. split; [reflexivity|].
  split; [exact Hqs|].
  destruct (startSession_overwrites_current demoFormat demoISO demoRetyped "New" 1000
              (demoRun [(0, start "Old")] freshWorld).1 _ Hn eq_refl Hqs) as (_ & H & _).
  exact H.
Defined.

(** * Closed instances for the further properties *)

Example escapeHtml_markup : escapeHtml "a<b> & c" = "a&lt;b&gt; &amp; c"%string.
Proof. reflexivity. Qed.

Example formatTime_session : formatTime SESSION_DURATION_MS = "10:00"%string.
Proof. reflexivity. Qed.

Example sessionCodeOf_second_slash : sessionCodeOf "https://x/s//s/abc" = Some "abc"%string.
Proof. reflexivity. Qed.

Lemma escapeHtml_injective_witness :
  escapeHtml "a<b" = escapeHtml "a<b" /\ "a<b"%string = "a<b"%string.
Proof.
  split; [reflexivity|].
  apply (escapeHtml_injective "a<b" "a<b"). reflexivity.
Defined.

Lemma escapeHtml_plain_and_app_witness :
  includesChar "&" "Thermo P3" = false /\
  escapeHtml "Thermo P3" = "Thermo P3"%string.
Proof.
  split; [reflexivity|].
  apply (proj1 (escapeHtml_plain_and_app "Thermo P3" "")); reflexivity.
Defined.

Lemma form_page_agrees_with_handler_witness :
  let w := (demoRun [(0, start "a<b")] freshWorld).1 in
  emailOf (formOf "a@x" "Ann") <> ""%string /\
  nameOf (formOf "a@x" "Ann") <> ""%string /\
  falsyOpt (({["action" := ""; "sessionName" := "a<b"]} : gmap string string)
              !! "action") = true /\
  doGet {["action" := ""; "sessionName" := "a<b"]}%string w = serveStudentForm w /\
  serveStudentForm w = RForm true (Some "a&lt;b"%string).
Proof.
  assert (emailOf (formOf "a@x" "Ann") <> ""%string) as He by (vm_compute; congruence).
  assert (nameOf (formOf "a@x" "Ann") <> ""%string) as Hn by (vm_compute; congruence).
  split; [exact He|]. split; [exact Hn|]. split; [vm_compute; reflexivity|].
  destruct (form_page_agrees_with_handler demoFormat demoISO demoRetyped
              (formOf "a@x" "Ann") {["action" := ""; "sessionName" := "a<b"]}%string 1000
              (demoRun [(0, start "a<b")] freshWorld).1 He Hn) as (_ & H2 & H3).
  split; [apply H3; vm_compute; reflexivity|].
  apply H2. exists "a<b"%string. split; vm_compute; reflexivity.
Defined.

Lemma requests_keep_setup_witness :
  let qs := [(0, start "Test"); (1000, submit (formOf "student1@college.edu" "Ann"))] in
  ROLL_MAP_ID freshWorld <> SHEET_ID freshWorld /\
  lookupRollNumber "student2@college.edu" (demoRun qs freshWorld).1
  = lookupRollNumber "student2@college.edu" freshWorld.
Proof.
  assert (ROLL_MAP_ID freshWorld <> SHEET_ID freshWorld) as Hne by (vm_compute; congruence).
  split; [exact Hne|].
  destruct (requests_keep_setup demoFormat demoISO demoRetyped
              [(0, start "Test"); (1000, submit (formOf "student1@college.edu" "Ann"))]
              freshWorld) as (_ & _ & _ & H).
  apply (proj2 (H Hne)).
Defined.

Lemma initialSetup_fresh_ledger_witness :
  let w := (demoRun [(0, start "Test"); (1000, submit (formOf "a@x" "Ann"))] freshWorld).1 in
  "roll-2"%string <> "sheet-2"%string /\
  "sheet-2"%string <> ""%string /\
  records (initialSetup "sheet-2" "u2" "roll-2" "r2" w) = [] /\
  (handleStudentSubmission demoFormat demoISO demoRetyped (formOf "a@x" "Ann") 2000
     (initialSetup "sheet-2" "u2" "roll-2" "r2" w)).2 = inr RSubmitOk /\
  records (handleStudentSubmission demoFormat demoISO demoRetyped (formOf "a@x" "Ann") 2000
             (initialSetup "sheet-2" "u2" "roll-2" "r2" w)).1
  = [demoRow "a@x" "NOT FOUND" "Test" 2000].
Proof.
  assert ("roll-2"%string <> "sheet-2"%string) as H1 by congruence.
  assert ("sheet-2"%string <> ""%string) as H2 by congruence.
  split; [exact H1|]. split; [exact H2|].
  destruct (initialSetup_fresh_ledger demoFormat demoISO demoRetyped
              "sheet-2" "u2" "roll-2" "r2"
              (demoRun [(0, start "Test"); (1000, submit (formOf "a@x" "Ann"))] freshWorld).1
              (formOf "a@x" "Ann") 2000 H1 H2) as (_ & _ & H3 & _ & _ & H6).
  split; [exact H3|].
  apply (H6 "Test"%string); vm_compute; congruence.
Defined.

Lemma lookupRollNumber_first_match_witness :
  falsyOpt (ROLL_MAP_ID rollWorld) = false /\
  ["Ann@College.EDU "; "21ME007"]%string !! 1%nat = Some "21ME007"%string /\
  lookupRollNumber "ann@college.edu" rollWorld = "21ME007"%string.
Proof.
  split; [reflexivity|]. split; [reflexivity|].
  apply (proj1 (lookupRollNumber_first_match "ann@college.edu" rollWorld
                  ["Email"; "RollNumber"]%string ["Ann@College.EDU "; "21ME007"]%string
                  [] [["ann@college.edu"; "21ME999"]%string]
                  eq_refl eq_refl (List.Forall_nil _) eq_refl)).
  reflexivity.
Defined.

(** A roll map with the email column only. *)
Example roll_without_second_cell :
  lookupRollNumber "a@x"
    (mkWorld None (Some "r"%string) None
       {["r"%string := mkSpreadsheet "u" [mkSheet "RollMap" [["Email"]; ["a@x"]]%string]]})
  = "LOOKUP ERROR"%string.
Proof. vm_compute. reflexivity. Qed.

Lemma lookupRollNumber_sound_witness :
  falsyOpt (ROLL_MAP_ID emptyWorld) = true /\
  lookupRollNumber "a@x" emptyWorld = "NO MAP"%string.
Proof.
  split; [reflexivity|].
  apply (proj1 (lookupRollNumber_sound "a@x" emptyWorld)). reflexivity.
Defined.

Lemma getResponses_filter_ignored_witness :
  let w := mkWorld (Some "s"%string) None None
             {["s"%string := mkSpreadsheet "u" [mkSheet "Attendance"
                                [["Email"]; ["a@x"]; ["b@x"]]%string]]} in
  getResponses (Some "Test"%string) w = getResponses None w.
Proof.
  apply (proj2 (getResponses_filter_ignored "Test" _)).
  intros h rest H. vm_compute in H. injection H as <- _. reflexivity.
Defined.

Lemma getResponses_answers_witness :
  falsyOpt (SHEET_ID freshWorld) = false /\
  attendanceData freshWorld = Some [attendanceHeader] /\
  exists responses,
    getResponses None freshWorld
    = RResponses (default [] (head [attendanceHeader])) responses (length responses).
Proof.
  split; [reflexivity|]. split; [vm_compute; reflexivity|].
  destruct (getResponses_answers None freshWorld) as (_ & _ & H).
  destruct (H [attendanceHeader]) as (responses & Hr & _);
    [reflexivity|vm_compute; reflexivity|].
  exists responses. exact Hr.
Defined.


Lemma records_well_formed_witness :
  let qs := [(0, start "  Test "); (1000, submit (formOf " A@X " "Ann"))] in
  sessionTrimmed freshWorld /\
  Forall recordOk (records freshWorld) /\
  Forall recordOk (records (demoRun qs freshWorld).1) /\
  records (demoRun qs freshWorld).1 = [demoRow "a@x" "NOT FOUND" "Test" 1000].
Proof.
  assert (sessionTrimmed freshWorld) as Hs by (intros n t a H; discriminate H).
  assert (Forall recordOk (records freshWorld)) as Hr by (vm_compute; constructor).
  split; [exact Hs|]. split; [exact Hr|]. split.
  - apply (records_well_formed demoFormat demoISO demoRetyped
             [(0, start "  Test "); (1000, submit (formOf " A@X " "Ann"))]
             freshWorld Hs Hr).
  - vm_compute. reflexivity.
Defined.

Lemma refused_submission_changes_nothing_witness :
  isSubmitOk (serve demoFormat demoISO demoRetyped 1000 (submit (formOf "a@x" "Ann")) freshWorld).2 = false /\
  (serve demoFormat demoISO demoRetyped 1000 (submit (formOf "a@x" "Ann")) freshWorld).1 = freshWorld.
Proof.
  split; [vm_compute; reflexivity|].
  apply (refused_submission_changes_nothing demoFormat demoISO demoRetyped (formOf "a@x" "Ann") 1000
           freshWorld).
  vm_compute. reflexivity.
Defined.

Lemma submitted_name_is_not_stored_witness :
  let w := (demoRun [(0, start "Test")] freshWorld).1 in
  formOf "a@x" "Bob" !! "email"%string = formOf "a@x" "Ann" !! "email"%string /\
  nameOf (formOf "a@x" "Ann") <> ""%string /\
  nameOf (formOf "a@x" "Bob") <> ""%string /\
  handleStudentSubmission demoFormat demoISO demoRetyped (formOf "a@x" "Bob") 1000 w
  = handleStudentSubmission demoFormat demoISO demoRetyped (formOf "a@x" "Ann") 1000 w.
Proof.
  assert (formOf "a@x" "Bob" !! "email"%string = formOf "a@x" "Ann" !! "email"%string)
    as He by (vm_compute; reflexivity).
  assert (nameOf (formOf "a@x" "Ann") <> ""%string) as H1 by (vm_compute; congruence).
  assert (nameOf (formOf "a@x" "Bob") <> ""%string) as H2 by (vm_compute; congruence).
  split; [exact He|]. split; [exact H1|]. split; [exact H2|].
  apply (submitted_name_is_not_stored demoFormat demoISO demoRetyped
           (formOf "a@x" "Ann") (formOf "a@x" "Bob") 1000 _ He H1 H2).
Defined.

Lemma countdown_sends_one_stop_witness :
  isActive (mountScreen 0) = true /\
  Exists (fun now => endTime (mountScreen 0) <= now) [1000; 600000; 601000] /\
  ticks [1000; 600000; 601000] (mountScreen 0)
  = (mkScreen (endTime (mountScreen 0)) 0 false, 1%nat).
Proof.
  assert (Exists (fun now => endTime (mountScreen 0) <= now) [1000; 600000; 601000]) as H.
  { apply Exists_cons_tl, Exists_cons_hd. vm_compute. congruence. }
  split; [reflexivity|]. split; [exact H|].
  destruct (countdown_sends_one_stop [1000; 600000; 601000] (mountScreen 0) eq_refl)
    as (_ & H2 & _).
  apply (proj1 (H2 H)).
Defined.

Lemma handleStart_passes_trimmed_name_witness :
  handleStart "  Thermo P3 " = Some "Thermo P3"%string /\
  trim "Thermo P3" = "Thermo P3"%string /\
  handleStart "Thermo P3" = Some "Thermo P3"%string.
Proof.
  split; [reflexivity|].
  destruct (proj2 (handleStart_passes_trimmed_name "  Thermo P3 ") "Thermo P3"%string
              eq_refl) as (_ & _ & H3 & H4).
  split; [exact H3|exact H4].
Defined.

Lemma exportFileName_safe_witness :
  includesChar "_" (exportFileName "MECH 6th/P3") = true /\
  (isAlphaNum "_" = true \/ "_"%char = "_"%char \/ "_"%char = "."%char).
Proof.
  split; [reflexivity|].
  apply (proj2 (exportFileName_safe "MECH 6th/P3" "_")). reflexivity.
Defined.


Lemma formatTime_shows_seconds_witness :
  0 <= 59999 < 6000000 /\ String.length (formatTime 59999) = 5%nat.
Proof.
  assert (0 <= 59999 < 6000000) as H by lia.
  split; [exact H|].
  apply (proj1 (proj2 (formatTime_shows_seconds 59999 0)) H).
Defined.

Lemma handleLogin_normal_form_witness :
  handleLogin " Student1@College.EDU " = Some "student1@college.edu"%string /\
  emailOf (<["email" := " Student1@College.EDU "%string]> (formOf "" "Ann"))
  = "student1@college.edu"%string.
Proof.
  split; [reflexivity|].
  destruct (handleLogin_normal_form " Student1@College.EDU " (formOf "" "Ann")) as [_ H].
  destruct (H "student1@college.edu"%string eq_refl) as (_ & _ & _ & _ & H5 & _).
  exact H5.
Defined.

Lemma sessionCodeOf_sound_witness :
  sessionCodeOf "https://host/s/Ab_1-x?y=1" = Some "Ab_1-x"%string /\
  codeRun "Ab_1-x" = "Ab_1-x"%string.
Proof.
  split; [reflexivity|].
  apply (sessionCodeOf_sound "https://host/s/Ab_1-x?y=1" "Ab_1-x"). reflexivity.
Defined.

Lemma sessionCodeOf_of_link_witness :
  (forall pre post, "h:/x"%string <> (pre +:+ "/s" +:+ post)%string) /\
  "Ab1"%string <> ""%string /\
  codeRun "Ab1" = "Ab1"%string /\
  codeRun "?y" = ""%string /\
  sessionCodeOf ("h:/x" +:+ "/s/" +:+ "Ab1" +:+ "?y") = Some "Ab1"%string.
Proof.
  assert (forall pre post, "h:/x"%string <> (pre +:+ "/s" +:+ post)%string) as Hbase.
  { intros pre post H.
    do 4 (destruct pre as [|? pre]; [discriminate H|injection H as _ H]).
    destruct pre; discriminate H. }
  assert ("Ab1"%string <> ""%string) as Hne by congruence.
  split; [exact Hbase|]. split; [exact Hne|]. split; [reflexivity|]. split; [reflexivity|].
  apply (sessionCodeOf_of_link "h:/x" "Ab1" "?y" Hbase Hne); reflexivity.
Defined.

Lemma text_name_at_most_once_witness :
  let w := (demoRun [(0, start "Test"); (1000, submit (formOf "a@x" "Ann"))] freshWorld).1 in
  demoRetyped "Test" = false /\
  demoRetyped "a@x" = false /\
  ledgerOk demoRetyped freshWorld /\
  (length (recordsFor "Test" "a@x" w) <= 1)%nat /\
  handleStudentSubmission demoFormat demoISO demoRetyped (formOf " A@X" "Ann") 2000 w
  = (w, inr (RError "You have already submitted for this session")).
Proof.
  assert (ledgerOk demoRetyped freshWorld) as H by (vm_compute; constructor).
  destruct (text_name_at_most_once demoFormat demoISO demoRetyped freshWorld
              [(0, start "Test"); (1000, submit (formOf "a@x" "Ann"))] "Test" "a@x"
              eq_refl eq_refl H)
    as [H1 H2].
  split; [reflexivity|]. split; [reflexivity|]. split; [exact H|]. split; [exact H1|].
  apply (H2 (formOf " A@X" "Ann") 2000); vm_compute; congruence.
Defined.
